(** * python-ffmpeg-track-remover: a shallow embedding of [main.py]

    The script lists the video files of a directory, builds one [ffmpeg]
    command line per file, runs it and stops the batch at the first failing
    command.  The development below embeds

      - the part of [pathlib] the script relies on (POSIX flavour,
        CPython 3.9 to 3.13: [Path(str)], [/], [parts], [name], [suffix],
        [parent], [str], [iterdir]);
      - the operating system, the process runner and the JSON decoder as a
        [Platform] record (they are not code of the script);
      - the script's functions, in a state-and-exception monad whose state is
        the platform's world together with the trace of observable events.

    Python strings are modelled by [string], a character standing for the
    code point of the same number: the strings of the model are the Python
    strings whose code points are all below 256, and [str.lower] is Python's
    on these. *)

From Stdlib Require Import String Ascii List ZArith Lia Bool Arith.
Import ListNotations.
Open Scope string_scope.
Open Scope list_scope.

(** ** Python strings *)

Module PyStr.

(** The lower-case mapping of Unicode on the code points below 256: the
    letters A to Z, and the letters U+00C0 to U+00DE but the sign U+00D7, are
    moved up by 32; every other code point is kept. *)
Definition lower_char (c : ascii) : ascii :=
  let n := nat_of_ascii c in
  if ((65 <=? n)%nat && (n <=? 90)%nat)
     || ((192 <=? n)%nat && (n <=? 222)%nat && negb (n =? 215)%nat)
  then ascii_of_nat (n + 32) else c.

(** [s.lower()] *)
Fixpoint lower (s : string) : string :=
  match s with
  | EmptyString => EmptyString
  | String c s' => String (lower_char c) (lower s')
  end.

Definition len (s : string) : Z := Z.of_nat (String.length s).

Fixpoint rfind_from (c : ascii) (s : string) (i last : Z) : Z :=
  match s with
  | EmptyString => last
  | String a s' => rfind_from c s' (i + 1) (if Ascii.eqb a c then i else last)
  end.

(** [s.rfind(c)]: the highest index of [c] in [s], [-1] when absent. *)
Definition rfind (c : ascii) (s : string) : Z := rfind_from c s 0 (-1).

(** [s[i:]] for [0 <= i]. *)
Definition slice_from (i : Z) (s : string) : string :=
  let n := Z.to_nat i in
  String.substring n (String.length s - n) s.

(** [s.split(sep)] for a one-character separator. *)
Fixpoint split (sep : ascii) (s : string) : list string :=
  match s with
  | EmptyString => [EmptyString]
  | String c s' =>
      if Ascii.eqb c sep then EmptyString :: split sep s'
      else match split sep s' with
           | piece :: rest => String c piece :: rest
           | [] => [String c EmptyString]
           end
  end.

(** [sep.join(l)] *)
Fixpoint join (sep : string) (l : list string) : string :=
  match l with
  | [] => EmptyString
  | [x] => x
  | x :: rest => x ++ sep ++ join sep rest
  end.

(** Two strings are equal up to the case of their letters. *)
Definition eq_nocase (a b : string) : bool := String.eqb (lower a) (lower b).

End PyStr.

(** ** pathlib, POSIX flavour *)

Module Pathlib.

(** A pure path after parsing: the drive is always empty on POSIX, the root
    is [""], ["/"] or ["//"], and [tail] holds the components. *)
Record Path : Type := mkPath { root : string; tail : list string }.

Definition sep : ascii := "/"%char.

(** [posixpath.splitroot] without the drive. *)
Definition splitroot (p : string) : string * string :=
  match p with
  | String "/" (String "/" (String "/" _)) => ("/", PyStr.slice_from 1 p)
  | String "/" (String "/" rest) => ("//", rest)
  | String "/" rest => ("/", rest)
  | _ => ("", p)
  end.

Definition keep_part (x : string) : bool :=
  negb (String.eqb x "") && negb (String.eqb x ".").

(** [Path(s)]: [_parse_path]. *)
Definition parse (s : string) : Path :=
  let (r, rel) := splitroot s in
  mkPath r (filter keep_part (PyStr.split sep rel)).

(** [p / q] for two paths: an anchored right operand replaces the left. *)
Definition joinpath (p q : Path) : Path :=
  if String.eqb (root q) "" then mkPath (root p) (tail p ++ tail q) else q.

(** [p / s] for a string right operand. *)
Definition joinpath_str (p : Path) (s : string) : Path := joinpath p (parse s).

(** [str(p)] *)
Definition str (p : Path) : string :=
  if String.eqb (root p) "" then
    match tail p with
    | [] => "."
    | _ => PyStr.join "/" (tail p)
    end
  else root p ++ PyStr.join "/" (tail p).

(** [p.parts]: the anchor, when there is one, then the components. *)
Definition parts (p : Path) : list string :=
  if String.eqb (root p) "" then tail p else root p :: tail p.

(** [p.name]: the last component, [""] when there is none. *)
Definition name (p : Path) : string := last (tail p) "".

(** [p.suffix] *)
Definition suffix (p : Path) : string :=
  let n := name p in
  let i := PyStr.rfind "."%char n in
  if (0 <? i)%Z && (i <? PyStr.len n - 1)%Z then PyStr.slice_from i n else "".

(** [p.parent] *)
Definition parent (p : Path) : Path :=
  match tail p with
  | [] => p
  | _ => mkPath (root p) (removelast (tail p))
  end.

(** [p._make_child_relpath(entry)]: the path [iterdir] yields for the
    directory entry [entry] of [p]. *)
Definition make_child_relpath (p : Path) (entry : string) : Path :=
  mkPath (root p) (tail p ++ [entry]).

End Pathlib.

Import Pathlib.


(** ** Python values and exceptions *)

(** The objects [json.load] builds.  A dict is kept as the list of its items;
    a float is kept as the text that denotes it. *)
#[local] Unset Elimination Schemes.
Inductive JSON : Type :=
| JNull
| JBool (b : bool)
| JInt (z : Z)
| JFloat (lexeme : string)
| JString (s : string)
| JArray (items : list JSON)
| JObject (items : list (string * JSON)).
#[local] Set Elimination Schemes.

(** Exceptions.  Those the script raises itself carry the arguments the script
    gives them; [IndexError], [TypeError] and [JSONDecodeError] are raised by
    the interpreter and the libraries, and their message text is not modelled. *)
Inductive PyExc : Type :=
| RuntimeError (args : list string)
| FileNotFoundError (args : list string)
| NotADirectoryError (args : list string)
| OSError (args : list string)
| ValueError (args : list string)
| KeyError (key : string)
| IndexError
| TypeError
| JSONDecodeError.

(** The strings an exception object carries in its [args]. *)
Definition exc_args (e : PyExc) : list string :=
  match e with
  | RuntimeError args | FileNotFoundError args
  | NotADirectoryError args | OSError args | ValueError args => args
  | KeyError key => [key]
  | IndexError | TypeError | JSONDecodeError => []
  end.

(** [subprocess.CompletedProcess], with the output captured as text. *)
Record CompletedProcess : Type :=
  mkCompleted { returncode : Z; stdout : string; stderr : string }.

(** What a [print] call writes.  The text of [print(f"...{command}")] ends
    with Python's [repr] of a list of strings, which is kept as the list. *)
Inductive Printed : Type :=
| Text (s : string)
| TextList (s : string) (l : list string).

(** The observable actions of a run, in the order they happen. *)
Inductive Event : Type :=
| EvExists (p : Path)
| EvOpen (p : Path)
| EvSetenv (key value : string)
| EvIterdir (p : Path)
| EvRun (command : list string)
| EvPrint (out : Printed).

(** ** The platform

    Everything the script obtains from outside: the file system, the
    environment, the external processes, the JSON decoder and the rendering of
    a non-string object in an f-string. *)
Record Platform : Type := mkPlatform {
  World : Type;
  getcwd : World -> string;
  environ_get : World -> string -> option string;
  environ_set : string -> string -> World -> World;
  path_exists : World -> Path -> bool;
  read_text : World -> Path -> PyExc + string;
  listdir : World -> Path -> PyExc + list string;
  subprocess_run : list string -> World -> (PyExc + CompletedProcess) * World;
  json_loads : string -> PyExc + JSON;
  format_object : JSON -> string
}.

(** [os.pathsep] *)
Definition pathsep : string := ":".

(** ** The monad of the script: a world, a trace, and exceptions *)

Record State (P : Platform) : Type := mkState { world : World P; trace : list Event }.

Arguments world {P} _.
Arguments trace {P} _.

Definition M (P : Platform) (A : Type) : Type := State P -> (PyExc + A) * State P.

Definition ret {P A} (a : A) : M P A := fun st => (inr a, st).

Definition bind {P A B} (m : M P A) (k : A -> M P B) : M P B :=
  fun st =>
    match m st with
    | (inl e, st') => (inl e, st')
    | (inr a, st') => k a st'
    end.

Definition raise {P A} (e : PyExc) : M P A := fun st => (inl e, st).

Definition lift {P A} (r : PyExc + A) : M P A := fun st => (r, st).

Definition emit {P} (ev : Event) : M P unit :=
  fun st => (inr tt, mkState P (world st) (trace st ++ [ev])).

Declare Scope py_scope.
Delimit Scope py_scope with py.
Notation "x <- m ;; k" := (bind m (fun x => k))
  (at level 100, m at next level, right associativity) : py_scope.
Notation "m ;; k" := (bind m (fun _ => k))
  (at level 100, right associativity) : py_scope.
Open Scope py_scope.

(** [for x in l: body(x)] *)
Fixpoint for_each {P A} (body : A -> M P unit) (l : list A) : M P unit :=
  match l with
  | [] => ret tt
  | x :: rest => body x ;; for_each body rest
  end.

(** [[f(x) for x in l]] *)
Fixpoint comprehension {P A B} (f : A -> M P B) (l : list A) : M P (list B) :=
  match l with
  | [] => ret []
  | x :: rest => y <- f x ;; ys <- comprehension f rest ;; ret (y :: ys)
  end.

(** [c in s] for a character [c]. *)
Fixpoint contains (c : ascii) (s : string) : bool :=
  match s with
  | EmptyString => false
  | String a s' => Ascii.eqb a c || contains c s'
  end.

(** The character NUL. *)
Definition NUL : ascii := "000"%char.

(** ** Primitive operations, as the script calls them *)

Section Script.

Variable P : Platform.

(** [os.getcwd()] *)
Definition os_getcwd : M P string :=
  fun st => (inr (getcwd P (world st)), st).

(** [os.environ[key]] *)
Definition os_environ_getitem (key : string) : M P string :=
  fun st =>
    match environ_get P (world st) key with
    | Some v => (inr v, st)
    | None => (inl (KeyError key), st)
    end.

(** [os.environ[key] = value]: [os.putenv] refuses a NUL in the name or in
    the value, then an empty name or a name holding [=], with [ValueError];
    nothing is assigned then. *)
Definition os_environ_setitem (key value : string) : M P unit :=
  fun st =>
    if contains NUL key || contains NUL value
    then (inl (ValueError ["embedded null byte"]), st)
    else if String.eqb key "" || contains "="%char key
    then (inl (ValueError ["illegal environment variable name"]), st)
    else
      (inr tt, mkState P (environ_set P key value (world st))
                       (trace st ++ [EvSetenv key value])).

(** [file_path.exists()] *)
Definition exists_ (file_path : Path) : M P bool :=
  fun st =>
    (inr (path_exists P (world st) file_path),
     mkState P (world st) (trace st ++ [EvExists file_path])).

(** [with open(file_path, 'r') as file: json.load(file)] *)
Definition open_json_load (file_path : Path) : M P JSON :=
  fun st =>
    let st' := mkState P (world st) (trace st ++ [EvOpen file_path]) in
    match read_text P (world st) file_path with
    | inl e => (inl e, st')
    | inr text => (json_loads P text, st')
    end.

(** [dir_path.iterdir()], consumed to its end: one path per directory entry. *)
Definition iterdir (dir_path : Path) : M P (list Path) :=
  fun st =>
    let st' := mkState P (world st) (trace st ++ [EvIterdir dir_path]) in
    match listdir P (world st) dir_path with
    | inl e => (inl e, st')
    | inr entries => (inr (map (make_child_relpath dir_path) entries), st')
    end.

(** [subprocess.run(command, capture_output=True, text=True)] *)
Definition run (command : list string) : M P CompletedProcess :=
  fun st =>
    let (r, w') := subprocess_run P command (world st) in
    (r, mkState P w' (trace st ++ [EvRun command])).

(** [print(...)] *)
Definition print (out : Printed) : M P unit := emit (EvPrint out).

(** [obj[key]] for a string key. *)
Fixpoint dict_get (items : list (string * JSON)) (key : string) : option JSON :=
  match items with
  | [] => None
  | (k, v) :: rest => if String.eqb k key then Some v else dict_get rest key
  end.

Definition getitem (obj : JSON) (key : string) : PyExc + JSON :=
  match obj with
  | JObject items =>
      match dict_get items key with
      | Some v => inr v
      | None => inl (KeyError key)
      end
  | _ => inl TypeError
  end.

(** [obj + s] for a string [s]. *)
Definition add_str (obj : JSON) (s : string) : PyExc + string :=
  match obj with
  | JString a => inr (a ++ s)%string
  | _ => inl TypeError
  end.

(** [Path(obj)] *)
Definition Path_ (obj : JSON) : PyExc + Path :=
  match obj with
  | JString s => inr (parse s)
  | _ => inl TypeError
  end.

(** [f'{obj}'] *)
Definition fstring (obj : JSON) : string :=
  match obj with
  | JString s => s
  | _ => format_object P obj
  end.

(** [p.parts[-1]] *)
Definition parts_last (p : Path) : PyExc + string :=
  match parts p with
  | [] => inl IndexError
  | x :: l => inr (last (x :: l) "")
  end.

(** ** The script *)

Definition load_json_from_file (file_path : Path) : M P JSON :=
  found <- exists_ file_path ;;
  if negb found
  then raise (FileNotFoundError ["File '" ++ str file_path ++ "' does not exist."]%string)
  else
    json_data <- open_json_load file_path ;;
    ret json_data.

(** The module-level names the functions read. *)
Record Globals : Type := mkGlobals {
  CONFIG : JSON;
  FFMPEG_DIR : JSON;
  VIDEO_SOURCE_DIR : JSON;
  VIDEO_TARGET_DIR : JSON;
  FILE_EXTENSION : JSON;
  ENV_PATH : string;
  SOURCE_PATH : Path;
  TARGET_PATH : Path
}.

(** Lines 32 to 42: the assignments executed when the module is loaded. *)
Definition module_init : M P Globals :=
  cwd <- os_getcwd ;;
  config <- load_json_from_file (joinpath_str (parent (parse cwd)) "config.json") ;;
  ffmpeg_dir <- lift (getitem config "ffmpeg_dir") ;;
  source_dir <- lift (getitem config "source_dir") ;;
  target_dir <- lift (getitem config "target_dir") ;;
  file_extension <- lift (getitem config "file_extension_filter") ;;
  head <- lift (add_str ffmpeg_dir pathsep) ;;
  path <- os_environ_getitem "PATH" ;;
  let env_path := (head ++ path)%string in
  source_path <- lift (Path_ source_dir) ;;
  target_path <- lift (Path_ target_dir) ;;
  ret (mkGlobals config ffmpeg_dir source_dir target_dir file_extension
                 env_path source_path target_path).

Definition FFMPEG_INSPECT_COMMAND_HEAD : list string :=
  ["ffprobe"; "-v"; "error"; "-show_entries";
   "stream=index,codec_type:stream_tags=language"; "-of"; "json"].

Definition FFMPEG_REMOVE_HUN_AUDIO_COMMAND_P1 : list string := ["ffmpeg"; "-i"].

Definition FFMPEG_REMOVE_HUN_AUDIO_COMMAND_P2 : list string :=
  ["-map"; "0:v";
   "-map"; "0:s";
   "-map"; "-0:a:0";
   "-map"; "0:a:1";
   "-c:v"; "copy";
   "-c:a"; "copy";
   "-c:s"; "copy"].

(** The test of the comprehension at line 58. *)
Definition extension_matches (extension : string) (file : Path) : bool :=
  String.eqb (PyStr.lower (suffix file)) ("." ++ extension)%string.

Definition get_video_files_from_path (dir_path : Path) (extension : string)
  : M P (list Path) :=
  files <- iterdir dir_path ;;
  ret (map (joinpath dir_path) (filter (extension_matches extension) files)).

(** Lines 68 and 69: the command built for one file. *)
Definition remove_command (video_file target_dir : Path) : PyExc + list string :=
  match parts_last video_file with
  | inl e => inl e
  | inr base =>
      let output_file_path := str (joinpath_str target_dir base) in
      inr (FFMPEG_REMOVE_HUN_AUDIO_COMMAND_P1 ++ [str video_file]
           ++ FFMPEG_REMOVE_HUN_AUDIO_COMMAND_P2 ++ [output_file_path])
  end.

(** The body of the loop at line 67. *)
Definition remove_hun_audio_from_file (target_dir video_file : Path) : M P unit :=
  command <- lift (remove_command video_file target_dir) ;;
  print (Text ("Removing HUN audio from video " ++ name video_file)%string) ;;
  print (TextList "Command arguments: " command) ;;
  result <- run command ;;
  if negb (returncode result =? 0)%Z
  then
    print (Text ("Process failed with this error message:" ++ String "010" (stderr result))%string) ;;
    raise (RuntimeError [])
  else
    print (Text ("Removed HUN audio from video " ++ name video_file)%string).

Definition remove_hun_audio_from_files (video_files : list Path) (target_dir : Path)
  : M P unit :=
  for_each (remove_hun_audio_from_file target_dir) video_files.

(** Line 95: the command [get_file_data] runs. *)
Definition ffprobe_command (video_file : Path) : list string :=
  FFMPEG_INSPECT_COMMAND_HEAD ++ [str video_file].

Definition get_file_data (video_file : Path) : M P string :=
  result <- run (ffprobe_command video_file) ;;
  if (returncode result =? 0)%Z
  then ret (stdout result)
  else ret "".

Definition get_file_data_list_raw (video_files : list Path) : M P (list string) :=
  comprehension get_file_data video_files.

Definition get_processed_data (raw_data : list string) : M P (list JSON) :=
  comprehension (fun data => lift (json_loads P data)) raw_data.

Definition print_file_data_raw (video_files : list Path) : M P unit :=
  for_each
    (fun video_file =>
       result <- run (ffprobe_command video_file) ;;
       if (returncode result =? 0)%Z
       then print (Text (stdout result))
       else ret tt)
    video_files.

(** Lines 121 to 134: the body of [if __name__ == '__main__']. *)
Definition main (g : Globals) : M P unit :=
  os_environ_setitem "PATH" (ENV_PATH g) ;;
  video_source_files <- get_video_files_from_path (SOURCE_PATH g) (fstring (FILE_EXTENSION g)) ;;
  remove_hun_audio_from_files video_source_files (TARGET_PATH g).

(** Running the script: the module is loaded, then the main block runs. *)
Definition script : M P unit :=
  g <- module_init ;;
  main g.

(** The debugging pipeline commented out at lines 127 and 128. *)
Definition debug_pipeline (video_files : list Path) : M P (list JSON) :=
  raw <- get_file_data_list_raw video_files ;;
  get_processed_data raw.

End Script.

(** ** Reading a trace *)

(** The commands handed to the process runner, oldest first. *)
Definition runs_of (t : list Event) : list (list string) :=
  flat_map (fun ev => match ev with EvRun c => [c] | _ => [] end) t.

(** The directories enumerated. *)
Definition iterdirs_of (t : list Event) : list Path :=
  flat_map (fun ev => match ev with EvIterdir p => [p] | _ => [] end) t.

(** What the process runner answers when it is handed the commands of [cmds]
    one after the other, starting in world [w]. *)
Fixpoint run_all (P : Platform) (cmds : list (list string)) (w : World P)
  : list (PyExc + CompletedProcess) :=
  match cmds with
  | [] => []
  | c :: rest =>
      let (r, w') := subprocess_run P c w in
      r :: run_all P rest w'
  end.

(** The runner launched the process and it exited with code 0. *)
Definition exited_zero (r : PyExc + CompletedProcess) : Prop :=
  exists c, r = inr c /\ returncode c = 0%Z.

(** The runner launched the process (it did not raise). *)
Definition launched (r : PyExc + CompletedProcess) : Prop :=
  exists c, r = inr c.

(** The argument vector the specification gives for the removal command:
    [ffmpeg -i <source> -map 0:v -map 0:s -map -0:a:0 -map 0:a:1 -c:v copy
    -c:a copy -c:s copy <outputDir>/<sourceFileName>]. *)
Definition removal_argv (video_file target_dir : Path) : list string :=
  ["ffmpeg"; "-i"; str video_file;
   "-map"; "0:v"; "-map"; "0:s"; "-map"; "-0:a:0"; "-map"; "0:a:1";
   "-c:v"; "copy"; "-c:a"; "copy"; "-c:s"; "copy";
   str (joinpath_str target_dir (name video_file))].

(** The command the batch builds for one file ([[]] when the path has no
    part at all and the subscript [parts[-1]] fails). *)
Definition command_for (target_dir video_file : Path) : list string :=
  match remove_command video_file target_dir with
  | inr c => c
  | inl _ => []
  end.

(** The four events the batch adds for a file whose command fails. *)
Definition abort_events (target_dir video_file : Path) (r : CompletedProcess)
  : list Event :=
  [EvPrint (Text ("Removing HUN audio from video " ++ name video_file)%string);
   EvPrint (TextList "Command arguments: " (command_for target_dir video_file));
   EvRun (command_for target_dir video_file);
   EvPrint (Text ("Process failed with this error message:"
                  ++ String "010" (stderr r))%string)].

(** The four events the batch adds for a file whose command succeeds. *)
Definition success_events (target_dir video_file : Path) : list Event :=
  [EvPrint (Text ("Removing HUN audio from video " ++ name video_file)%string);
   EvPrint (TextList "Command arguments: " (command_for target_dir video_file));
   EvRun (command_for target_dir video_file);
   EvPrint (Text ("Removed HUN audio from video " ++ name video_file)%string)].

(** What [get_file_data] returns for a completed process. *)
Definition data_of (c : CompletedProcess) : string :=
  if (returncode c =? 0)%Z then stdout c else "".

(** The file the module reads its configuration from (line 32). *)
Definition config_path (P : Platform) (w : World P) : Path :=
  joinpath_str (parent (parse (getcwd P w))) "config.json".

(** The world after the runner has handled the commands of [cmds] one after
    the other, starting in world [w]. *)
Fixpoint world_after (P : Platform) (cmds : list (list string)) (w : World P)
  : World P :=
  match cmds with
  | [] => w
  | c :: rest => world_after P rest (snd (subprocess_run P c w))
  end.

(** [t] occurs in [s]. *)
Fixpoint occurs_in (t s : string) : bool :=
  String.prefix t s
  || match s with
     | EmptyString => false
     | String _ s' => occurs_in t s'
     end.

(** The exception object holds the text [t] in one of its arguments. *)
Definition carries (e : PyExc) (t : string) : bool :=
  existsb (occurs_in t) (exc_args e).

(** The keys the module reads from the configuration, in the order read. *)
Definition required_keys : list string :=
  ["ffmpeg_dir"; "source_dir"; "target_dir"; "file_extension_filter"].

(** The entries of a directory, as the paths [iterdir] yields for them. *)
Definition children (dir_path : Path) (entries : list string) : list Path :=
  map (make_child_relpath dir_path) entries.

(** Components a parsed path can hold: not empty, not ".", without "/". *)
Fixpoint has_sep (s : string) : bool :=
  match s with
  | EmptyString => false
  | String c s' => Ascii.eqb c sep || has_sep s'
  end.

Definition valid_part (x : string) : bool := keep_part x && negb (has_sep x).

(** The paths [pathlib] builds: one of the three roots, valid parts. *)
Definition wf_path (p : Path) : Prop :=
  (root p = "" \/ root p = "/" \/ root p = "//")
  /\ Forall (fun x => valid_part x = true) (tail p).

(** What was printed, oldest first. *)
Definition printed_of (t : list Event) : list Printed :=
  flat_map (fun ev => match ev with EvPrint o => [o] | _ => [] end) t.

(** The environment assignments made, oldest first. *)
Definition setenvs_of (t : list Event) : list (string * string) :=
  flat_map (fun ev => match ev with EvSetenv k v => [(k, v)] | _ => [] end) t.

(** The files opened, oldest first. *)
Definition opens_of (t : list Event) : list Path :=
  flat_map (fun ev => match ev with EvOpen p => [p] | _ => [] end) t.

(** The events [print_file_data_raw] adds for a file whose inspection
    completed with [c]. *)
Definition inspection_events (video_file : Path) (c : CompletedProcess)
  : list Event :=
  EvRun (ffprobe_command video_file)
  :: (if (returncode c =? 0)%Z then [EvPrint (Text (stdout c))] else []).

(** The files the main block hands to the batch, from the entries of the
    source directory (line 58). *)
Definition selected_files (dir_path : Path) (extension : string)
           (entries : list string) : list Path :=
  map (joinpath dir_path)
      (filter (extension_matches extension) (children dir_path entries)).

(** ** A platform for running the script on examples

    Files and directories are tables indexed by the text of their path, the
    process runner replays a list of prepared results, and the decoder knows
    the documents of a table. *)

Module Demo.

Record DemoWorld : Type := mkDemo {
  cwd : string;
  env : list (string * string);
  files : list (string * string);
  dirs : list (string * list string);
  replies : list CompletedProcess
}.

Fixpoint assoc {A} (l : list (string * A)) (k : string) : option A :=
  match l with
  | [] => None
  | (k', v) :: rest => if String.eqb k' k then Some v else assoc rest k
  end.

Definition demo_exists (w : DemoWorld) (p : Path) : bool :=
  match assoc (files w) (str p), assoc (dirs w) (str p) with
  | None, None => false
  | _, _ => true
  end.

Definition demo_read_text (w : DemoWorld) (p : Path) : PyExc + string :=
  match assoc (files w) (str p) with
  | Some text => inr text
  | None =>
      match assoc (dirs w) (str p) with
      | Some _ => inl (OSError ["Is a directory"])
      | None => inl (FileNotFoundError ["No such file or directory"])
      end
  end.

Definition demo_listdir (w : DemoWorld) (p : Path) : PyExc + list string :=
  match assoc (dirs w) (str p) with
  | Some entries => inr entries
  | None =>
      match assoc (files w) (str p) with
      | Some _ => inl (NotADirectoryError ["Not a directory"])
      | None => inl (FileNotFoundError ["No such file or directory"])
      end
  end.

Definition demo_run (command : list string) (w : DemoWorld)
  : (PyExc + CompletedProcess) * DemoWorld :=
  match replies w with
  | [] => (inl (FileNotFoundError ["No such file or directory"]), w)
  | r :: rest => (inr r, mkDemo (cwd w) (env w) (files w) (dirs w) rest)
  end.

Definition demo_setenv (k v : string) (w : DemoWorld) : DemoWorld :=
  mkDemo (cwd w) ((k, v) :: env w) (files w) (dirs w) (replies w).

(** The documents the demo decoder knows, by their text. *)
Definition full_config : JSON :=
  JObject [("ffmpeg_dir", JString "/opt/ffmpeg/bin");
           ("source_dir", JString "/videos/source");
           ("target_dir", JString "/videos/target");
           ("file_extension_filter", JString "mkv")].

Definition config_without_source : JSON :=
  JObject [("ffmpeg_dir", JString "/opt/ffmpeg/bin");
           ("target_dir", JString "/videos/target");
           ("file_extension_filter", JString "mkv")].

Definition documents : list (string * JSON) :=
  [("<full configuration>", full_config);
   ("<configuration without source_dir>", config_without_source);
   ("<streams>", JObject [("streams", JArray [])])].

Definition demo_json_loads (text : string) : PyExc + JSON :=
  match assoc documents text with
  | Some doc => inr doc
  | None => inl JSONDecodeError
  end.

Definition demo_format (obj : JSON) : string :=
  match obj with
  | JNull => "None"
  | JBool true => "True"
  | JBool false => "False"
  | _ => "<object>"
  end.

Definition platform : Platform :=
  mkPlatform DemoWorld cwd (fun w => assoc (env w)) demo_setenv demo_exists demo_read_text
             demo_listdir demo_run demo_json_loads demo_format.

Definition ok : CompletedProcess := mkCompleted 0 "" "".
Definition failed : CompletedProcess := mkCompleted 1 "" "Stream map '0:a:1' matches no streams.".

(** A machine with a source directory of four entries. *)
Definition machine (replies : list CompletedProcess) : DemoWorld :=
  mkDemo "/home/user/project"
         [("PATH", "/usr/bin")]
         [("/home/user/config.json", "<full configuration>")]
         [("/videos/source", ["a.mkv"; "b.MKV"; "notes.txt"; "c.mkv"]);
          ("/videos/target", []);
          ("videos", ["a.mkv"])]
         replies.

Definition start (w : DemoWorld) : State platform := mkState platform w [].

End Demo.


(** The three events the batch adds for a file whose process cannot be
    launched. *)
Definition launch_events (target_dir video_file : Path) : list Event :=
  [EvPrint (Text ("Removing HUN audio from video " ++ name video_file)%string);
   EvPrint (TextList "Command arguments: " (command_for target_dir video_file));
   EvRun (command_for target_dir video_file)].

(** The processes that were launched, among the answers of the runner. *)
Definition completed_of (results : list (PyExc + CompletedProcess))
  : list CompletedProcess :=
  flat_map (fun r => match r with inr c => [c] | inl _ => [] end) results.

(** The demo platform with a decoder that answers every text with a
    configuration whose [source_dir] is a number. *)
Definition config_with_number : JSON :=
  JObject [("ffmpeg_dir", JString "/opt/ffmpeg/bin");
           ("source_dir", JInt 5);
           ("target_dir", JString "/videos/target");
           ("file_extension_filter", JString "mkv")].

Definition platform_with_number : Platform :=
  mkPlatform Demo.DemoWorld Demo.cwd (fun w => Demo.assoc (Demo.env w))
             Demo.demo_setenv Demo.demo_exists Demo.demo_read_text
             Demo.demo_listdir Demo.demo_run
             (fun _ => inr config_with_number) Demo.demo_format.

Example parse_abs : parse "/videos//source/./a.mkv" = mkPath "/" ["videos"; "source"; "a.mkv"].
Proof. reflexivity. Qed.
Example parse_rel : parse "videos/a.MKV" = mkPath "" ["videos"; "a.MKV"].
Proof. reflexivity. Qed.
Example parse_dslash : parse "//a" = mkPath "//" ["a"].
Proof. reflexivity. Qed.
Example parse_tslash : parse "///a" = mkPath "/" ["a"].
Proof. reflexivity. Qed.
Example parse_empty : parse "" = mkPath "" [].
Proof. reflexivity. Qed.
Example str_rel : str (parse "videos/a.MKV") = "videos/a.MKV".
Proof. reflexivity. Qed.
Example str_dot : str (parse "") = ".".
Proof. reflexivity. Qed.
Example suffix1 : suffix (parse "/v/a.tar.GZ") = ".GZ".
Proof. reflexivity. Qed.
Example suffix_hidden : suffix (parse "/v/.mkv") = "".
Proof. reflexivity. Qed.
Example suffix_trailing : suffix (parse "/v/a.") = "".
Proof. reflexivity. Qed.

(** [str.lower] on the letters beyond ASCII: U+00C9 goes to U+00E9, the
    multiplication sign U+00D7 and the sharp s U+00DF stay. *)
Example lower_beyond_ascii :
  PyStr.lower (String "201" (String "215" (String "223" "")))
  = String "233" (String "215" (String "223" "")).
Proof. reflexivity. Qed.

Example parts_last_root : parts_last (parse "/") = inr "/".
Proof. reflexivity. Qed.
Example parts_last_empty : parts_last (parse ".") = inl IndexError.
Proof. reflexivity. Qed.

(** A run of the whole script on the demo machine: three of the four entries
    of the source directory match the filter, and three commands are run. *)
Example script_runs_three_commands :
  let final := script Demo.platform (Demo.start (Demo.machine [Demo.ok; Demo.ok; Demo.ok])) in
  fst final = inr tt
  /\ runs_of (trace (snd final))
     = map (command_for (parse "/videos/target"))
           [parse "/videos/source/a.mkv"; parse "/videos/source/b.MKV";
            parse "/videos/source/c.mkv"].
Proof. split; reflexivity. Qed.

(** The empty path has no last part: the loop raises [IndexError] before
    anything is printed or run. *)
Example batch_on_empty_path :
  remove_hun_audio_from_files Demo.platform [parse "."] (parse "/videos/target")
    (Demo.start (Demo.machine [Demo.ok]))
  = (inl IndexError, Demo.start (Demo.machine [Demo.ok])).
Proof. reflexivity. Qed.

(** The last part of the root is the root: the output path is the root. *)
Example command_for_root :
  remove_command (parse "/") (parse "/videos/target")
  = inr ["ffmpeg"; "-i"; "/";
         "-map"; "0:v"; "-map"; "0:s"; "-map"; "-0:a:0"; "-map"; "0:a:1";
         "-c:v"; "copy"; "-c:a"; "copy"; "-c:s"; "copy"; "/"].
Proof. reflexivity. Qed.

(** ** Traces *)

Lemma runs_of_app (a b : list Event) : runs_of (a ++ b) = runs_of a ++ runs_of b.
Proof. unfold runs_of. apply flat_map_app. Qed.

Lemma iterdirs_of_app (a b : list Event) :
  iterdirs_of (a ++ b) = iterdirs_of a ++ iterdirs_of b.
Proof. unfold iterdirs_of. apply flat_map_app. Qed.

(** ** Parsed paths *)

Lemma split_pieces_have_no_sep (s : string) :
  Forall (fun x => has_sep x = false) (PyStr.split sep s).
Proof.
  induction s as [|c s IH]; simpl.
  - repeat constructor.
  - destruct (Ascii.eqb c sep) eqn:Hc.
    + constructor; [reflexivity | exact IH].
    + destruct (PyStr.split sep s) as [|piece rest].
      * repeat constructor. simpl. rewrite Hc. reflexivity.
      * inversion IH as [|? ? Hpiece Hrest]; subst.
        constructor; [|exact Hrest]. simpl. rewrite Hc. exact Hpiece.
Qed.

Lemma split_without_sep (s : string) :
  has_sep s = false -> PyStr.split sep s = [s].
Proof.
  induction s as [|c s IH]; intros H; [reflexivity|].
  simpl in H |- *. apply orb_false_iff in H. destruct H as [Hc Hs].
  rewrite Hc, (IH Hs). reflexivity.
Qed.

(** Every component of a parsed path is a valid part. *)
Lemma parse_parts_valid (s : string) :
  Forall (fun x => valid_part x = true) (tail (parse s)).
Proof.
  unfold parse. destruct (splitroot s) as [r rel]. simpl.
  assert (H := split_pieces_have_no_sep rel).
  induction H as [|x l Hx _ IH]; simpl; [constructor|].
  destruct (keep_part x) eqn:Hk; [|exact IH].
  constructor; [|exact IH]. unfold valid_part. rewrite Hk, Hx. reflexivity.
Qed.

(** A valid part parses to the relative path made of this part alone. *)
Lemma parse_valid_part (x : string) :
  valid_part x = true -> parse x = mkPath "" [x].
Proof.
  unfold valid_part. intros H. apply andb_true_iff in H. destruct H as [Hk Hs].
  apply negb_true_iff in Hs.
  assert (Hroot : splitroot x = ("", x)).
  { destruct x as [|c x]; [reflexivity|].
    simpl in Hs. apply orb_false_iff in Hs. destruct Hs as [Hc _].
    destruct c as [[] [] [] [] [] [] [] []]; try reflexivity; discriminate Hc. }
  unfold parse. rewrite Hroot, (split_without_sep x Hs). simpl.
  rewrite Hk. reflexivity.
Qed.

(** Joining with a valid part appends it. *)
Lemma joinpath_str_valid_part (p : Path) (x : string) :
  valid_part x = true -> joinpath_str p x = make_child_relpath p x.
Proof.
  intros H. unfold joinpath_str. rewrite (parse_valid_part x H). reflexivity.
Qed.

Lemma name_make_child_relpath (p : Path) (x : string) :
  name (make_child_relpath p x) = x.
Proof. unfold name, make_child_relpath. simpl. apply last_last. Qed.

Lemma parent_make_child_relpath (p : Path) (x : string) :
  parent (make_child_relpath p x) = p.
Proof.
  unfold parent, make_child_relpath. simpl.
  destruct (tail p ++ [x]) eqn:H.
  - destruct (tail p); discriminate.
  - rewrite <- H, removelast_last. destruct p; reflexivity.
Qed.

(** The name of a parsed path that has components is a valid part. *)
Lemma parse_name_valid (s : string) :
  tail (parse s) <> [] -> valid_part (name (parse s)) = true.
Proof.
  intros Ht. assert (H := parse_parts_valid s). unfold name.
  destruct (exists_last Ht) as [l [x Hl]]. rewrite Hl in *.
  rewrite last_last. apply Forall_app in H. destruct H as [_ H].
  inversion H; assumption.
Qed.

(** ** The removal command *)

Lemma parts_last_name (p : Path) :
  tail p <> [] -> parts_last p = inr (name p).
Proof.
  intros Ht. unfold parts_last, parts, name.
  destruct (String.eqb (root p) "").
  - destruct (tail p) as [|x l]; [contradiction | reflexivity].
  - destruct (tail p) as [|x l]; [contradiction | reflexivity].
Qed.

Lemma parts_last_defined (p : Path) :
  parts p <> [] -> exists base, parts_last p = inr base.
Proof.
  intros Hp. unfold parts_last. destruct (parts p) as [|x l]; [contradiction|].
  eexists; reflexivity.
Qed.

Lemma remove_command_defined (video_file target_dir : Path) :
  parts video_file <> [] ->
  remove_command video_file target_dir = inr (command_for target_dir video_file).
Proof.
  intros Hp. unfold command_for.
  destruct (parts_last_defined video_file Hp) as [base Hb].
  unfold remove_command. rewrite Hb. reflexivity.
Qed.

Lemma remove_command_argv (video_file target_dir : Path) :
  tail video_file <> [] ->
  remove_command video_file target_dir = inr (removal_argv video_file target_dir).
Proof.
  intros Ht. unfold remove_command. rewrite (parts_last_name video_file Ht).
  reflexivity.
Qed.

(** ** One turn of the batch loop *)

Section Batch.

Variable P : Platform.

Lemma remove_file_success (target_dir video_file : Path) (w w' : World P)
      (tr : list Event) (r : CompletedProcess) :
  parts video_file <> [] ->
  subprocess_run P (command_for target_dir video_file) w = (inr r, w') ->
  returncode r = 0%Z ->
  remove_hun_audio_from_file P target_dir video_file (mkState P w tr)
  = (inr tt, mkState P w' (tr ++ success_events target_dir video_file)).
Proof.
  intros Hp Hrun Hrc.
  unfold remove_hun_audio_from_file, bind, lift, print, emit, run, raise.
  rewrite (remove_command_defined video_file target_dir Hp). simpl.
  rewrite Hrun, Hrc. simpl.
  unfold success_events. repeat rewrite <- app_assoc. reflexivity.
Qed.

Lemma remove_file_failure (target_dir video_file : Path) (w w' : World P)
      (tr : list Event) (r : CompletedProcess) :
  parts video_file <> [] ->
  subprocess_run P (command_for target_dir video_file) w = (inr r, w') ->
  returncode r <> 0%Z ->
  remove_hun_audio_from_file P target_dir video_file (mkState P w tr)
  = (inl (RuntimeError []), mkState P w' (tr ++ abort_events target_dir video_file r)).
Proof.
  intros Hp Hrun Hrc.
  unfold remove_hun_audio_from_file, bind, lift, print, emit, run, raise.
  rewrite (remove_command_defined video_file target_dir Hp). simpl.
  rewrite Hrun. apply Z.eqb_neq in Hrc. rewrite Hrc. simpl.
  unfold abort_events. repeat rewrite <- app_assoc. reflexivity.
Qed.

(** When every command exits with 0 the loop goes through the whole list. *)
Lemma batch_success (target_dir : Path) (video_files : list Path) :
  forall (w : World P) (tr : list Event),
    Forall (fun f => parts f <> []) video_files ->
    Forall exited_zero (run_all P (map (command_for target_dir) video_files) w) ->
    exists w',
      remove_hun_audio_from_files P video_files target_dir (mkState P w tr)
      = (inr tt,
         mkState P w' (tr ++ flat_map (success_events target_dir) video_files)).
Proof.
  induction video_files as [|f rest IH]; intros w tr Hparts Hres.
  - exists w. simpl. rewrite app_nil_r. reflexivity.
  - simpl in Hres.
    destruct (subprocess_run P (command_for target_dir f) w) as [r0 w0] eqn:Hrun.
    inversion Hres as [|? ? [c [-> Hc]] Hrest]; subst.
    inversion Hparts as [|? ? Hf Hrestparts]; subst.
    destruct (IH w0 (tr ++ success_events target_dir f) Hrestparts Hrest)
      as [w' Hbatch].
    exists w'.
    unfold remove_hun_audio_from_files in *. simpl for_each. unfold bind at 1.
    rewrite (remove_file_success _ _ _ _ tr _ Hf Hrun Hc).
    rewrite Hbatch. simpl flat_map. rewrite <- app_assoc. reflexivity.
Qed.

(** When the command of the file at index [i] is the first one that does not
    exit with 0, the loop stops there. *)
Lemma batch_abort_at (target_dir : Path) (video_files : list Path) :
  forall (i : nat) (w : World P) (tr : list Event) (f : Path) (r : CompletedProcess),
    Forall (fun f => parts f <> []) video_files ->
    nth_error video_files i = Some f ->
    (forall j, j < i ->
       exists rj,
         nth_error (run_all P (map (command_for target_dir) video_files) w) j = Some rj
         /\ exited_zero rj) ->
    nth_error (run_all P (map (command_for target_dir) video_files) w) i = Some (inr r) ->
    returncode r <> 0%Z ->
    exists w',
      remove_hun_audio_from_files P video_files target_dir (mkState P w tr)
      = (inl (RuntimeError []),
         mkState P w' (tr ++ flat_map (success_events target_dir) (firstn i video_files)
                          ++ abort_events target_dir f r)).
Proof.
  induction video_files as [|f0 rest IH]; intros i w tr f r Hparts Hf Hbefore Hres Hrc.
  - destruct i; discriminate.
  - inversion Hparts as [|? ? Hf0 Hrestparts]; subst.
    simpl in Hres, Hbefore.
    destruct (subprocess_run P (command_for target_dir f0) w) as [r0 w0] eqn:Hrun.
    unfold remove_hun_audio_from_files in *. simpl for_each. unfold bind at 1.
    destruct i as [|i].
    + simpl in Hf, Hres. injection Hf as ->. injection Hres as ->.
      exists w0.
      rewrite (remove_file_failure _ _ _ _ tr _ Hf0 Hrun Hrc).
      reflexivity.
    + simpl in Hf, Hres.
      destruct (Hbefore 0 (Nat.lt_0_succ i)) as [r0' [Hr0 [c [-> Hc]]]].
      simpl in Hr0. injection Hr0 as ->.
      rewrite (remove_file_success _ _ _ _ tr _ Hf0 Hrun Hc).
      destruct (IH i w0 (tr ++ success_events target_dir f0) f r Hrestparts Hf)
        as [w' Hbatch]; auto.
      { intros j Hj. apply (Hbefore (S j)). lia. }
      exists w'. rewrite Hbatch. simpl firstn. simpl flat_map.
      repeat rewrite <- app_assoc. reflexivity.
Qed.

Lemma runs_of_success_events (target_dir : Path) (video_files : list Path) :
  runs_of (flat_map (success_events target_dir) video_files)
  = map (command_for target_dir) video_files.
Proof.
  induction video_files as [|f rest IH]; [reflexivity|].
  unfold runs_of in *. simpl. rewrite IH. reflexivity.
Qed.

Lemma runs_of_abort_events (target_dir f : Path) (r : CompletedProcess) :
  runs_of (abort_events target_dir f r) = [command_for target_dir f].
Proof. reflexivity. Qed.

End Batch.

(** ** The batch: command construction, success, fail-fast abort *)

Lemma remove_file_runs (P : Platform) (target_dir video_file : Path) (st : State P) :
  parts video_file <> [] ->
  runs_of (trace (snd (remove_hun_audio_from_file P target_dir video_file st)))
  = runs_of (trace st) ++ [command_for target_dir video_file].
Proof.
  intros Hp. destruct st as [w tr].
  unfold remove_hun_audio_from_file, bind, lift, print, emit, run, raise.
  rewrite (remove_command_defined video_file target_dir Hp). simpl.
  destruct (subprocess_run P (command_for target_dir video_file) w) as [[e|r] w'];
    simpl.
  - repeat rewrite runs_of_app. simpl. repeat rewrite app_nil_r. reflexivity.
  - destruct (returncode r =? 0)%Z; simpl;
      repeat rewrite runs_of_app; simpl; repeat rewrite app_nil_r; reflexivity.
Qed.

(** C2.  For every source file path [S] that has a base name and every output
    directory [O], the removal command is, in order: [ffmpeg], [-i], [S], the
    four [-map] arguments [0:v], [0:s], [-0:a:0], [0:a:1], the three pairs
    [-c:v copy], [-c:a copy], [-c:s copy], and last [O] joined with the base
    name of [S]; this is the command the loop body hands to the runner; and
    the output path has the base name of [S] and lies directly under [O]
    (the base name of a parsed path is always a valid part, see
    [parse_name_valid]). *)
Theorem removal_command_vector (P : Platform) (S O : Path) (st : State P) :
  tail S <> [] ->
  remove_command S O
  = inr ["ffmpeg"; "-i"; str S;
         "-map"; "0:v"; "-map"; "0:s"; "-map"; "-0:a:0"; "-map"; "0:a:1";
         "-c:v"; "copy"; "-c:a"; "copy"; "-c:s"; "copy";
         str (joinpath_str O (name S))]
  /\ runs_of (trace (snd (remove_hun_audio_from_file P O S st)))
     = runs_of (trace st)
       ++ [["ffmpeg"; "-i"; str S;
            "-map"; "0:v"; "-map"; "0:s"; "-map"; "-0:a:0"; "-map"; "0:a:1";
            "-c:v"; "copy"; "-c:a"; "copy"; "-c:s"; "copy";
            str (joinpath_str O (name S))]]
  /\ (valid_part (name S) = true ->
      name (joinpath_str O (name S)) = name S
      /\ parent (joinpath_str O (name S)) = O).
Proof.
  intros Ht.
  assert (Hcmd := remove_command_argv S O Ht). unfold removal_argv in Hcmd.
  split; [exact Hcmd|].
  assert (Hp : parts S <> []).
  { unfold parts. destruct (String.eqb (root S) ""); [exact Ht | discriminate]. }
  split.
  - rewrite (remove_file_runs P O S st Hp).
    unfold command_for. rewrite Hcmd. reflexivity.
  - intros Hvalid. rewrite (joinpath_str_valid_part O (name S) Hvalid).
    split; [apply name_make_child_relpath | apply parent_make_child_relpath].
Qed.

Lemma removal_command_vector_witness :
  remove_command (parse "/videos/source/a.mkv") (parse "/videos/target")
  = inr ["ffmpeg"; "-i"; "/videos/source/a.mkv";
         "-map"; "0:v"; "-map"; "0:s"; "-map"; "-0:a:0"; "-map"; "0:a:1";
         "-c:v"; "copy"; "-c:a"; "copy"; "-c:s"; "copy";
         "/videos/target/a.mkv"].
Proof.
  apply (removal_command_vector Demo.platform
           (parse "/videos/source/a.mkv") (parse "/videos/target")
           (Demo.start (Demo.machine []))).
  simpl. discriminate.
Defined.

(** C3.  For every list of N files and a runner that exits non-zero on the
    K-th command (1 <= K <= N) and with 0 on the earlier ones, the batch hands
    exactly K commands to the runner, those of the first K files in order,
    raises the abort error ([RuntimeError]) after the K-th, and runs nothing
    for the files K+1..N. *)
Theorem batch_aborts_at_kth (P : Platform) (target_dir : Path)
        (video_files : list Path) (K : nat) (w : World P) (tr : list Event)
        (r : CompletedProcess) :
  let results := run_all P (map (command_for target_dir) video_files) w in
  Forall (fun f => parts f <> []) video_files ->
  1 <= K <= length video_files ->
  (forall j, j < K - 1 -> exists rj, nth_error results j = Some rj /\ exited_zero rj) ->
  nth_error results (K - 1) = Some (inr r) ->
  returncode r <> 0%Z ->
  exists st',
    remove_hun_audio_from_files P video_files target_dir (mkState P w tr)
    = (inl (RuntimeError []), st')
    /\ runs_of (trace st')
       = runs_of tr ++ map (command_for target_dir) (firstn K video_files)
    /\ length (runs_of (trace st')) = length (runs_of tr) + K.
Proof.
  intros results Hparts HK Hbefore Hres Hrc.
  destruct (nth_error video_files (K - 1)) as [f|] eqn:Hf.
  2:{ apply nth_error_None in Hf. lia. }
  destruct (batch_abort_at P target_dir video_files (K - 1) w tr f r
              Hparts Hf Hbefore Hres Hrc) as [w' Hbatch].
  assert (Hruns :
            runs_of (tr ++ flat_map (success_events target_dir)
                                    (firstn (K - 1) video_files)
                        ++ abort_events target_dir f r)
            = runs_of tr ++ map (command_for target_dir) (firstn K video_files)).
  { repeat rewrite runs_of_app. rewrite runs_of_success_events, runs_of_abort_events.
    f_equal. replace K with (S (K - 1)) at 2 by lia.
    clear - Hf. revert Hf. generalize (K - 1) as i.
    induction video_files as [|x l IH]; intros i Hf.
    - destruct i; discriminate.
    - destruct i as [|i]; simpl in Hf.
      + injection Hf as ->. reflexivity.
      + simpl. f_equal. apply (IH i Hf). }
  eexists. split; [exact Hbatch|]. simpl trace. split; [exact Hruns|].
  rewrite Hruns, length_app, length_map, length_firstn. lia.
Qed.

Lemma batch_aborts_at_kth_witness :
  exists st',
    remove_hun_audio_from_files Demo.platform
      [parse "/videos/source/a.mkv"; parse "/videos/source/b.MKV";
       parse "/videos/source/c.mkv"]
      (parse "/videos/target")
      (Demo.start (Demo.machine [Demo.ok; Demo.failed; Demo.ok]))
    = (inl (RuntimeError []), st')
    /\ runs_of (trace st')
       = [] ++ map (command_for (parse "/videos/target"))
                   [parse "/videos/source/a.mkv"; parse "/videos/source/b.MKV"]
    /\ length (runs_of (trace st')) = 0 + 2.
Proof.
  apply (batch_aborts_at_kth Demo.platform (parse "/videos/target")
           [parse "/videos/source/a.mkv"; parse "/videos/source/b.MKV";
            parse "/videos/source/c.mkv"]
           2 (Demo.machine [Demo.ok; Demo.failed; Demo.ok]) [] Demo.failed).
  - repeat constructor; discriminate.
  - simpl; lia.
  - intros j Hj. assert (j = 0) as -> by (simpl in Hj; lia).
    exists (inr Demo.ok). split; [reflexivity|].
    exists Demo.ok. split; reflexivity.
  - reflexivity.
  - simpl. discriminate.
Defined.

(** When every command exits with 0 the loop leaves the world the runner
    reached after handling the commands one after the other. *)
Lemma batch_success_world (P : Platform) (target_dir : Path)
      (video_files : list Path) :
  forall (w : World P) (tr : list Event),
    Forall (fun f => parts f <> []) video_files ->
    Forall exited_zero (run_all P (map (command_for target_dir) video_files) w) ->
    remove_hun_audio_from_files P video_files target_dir (mkState P w tr)
    = (inr tt,
       mkState P (world_after P (map (command_for target_dir) video_files) w)
               (tr ++ flat_map (success_events target_dir) video_files)).
Proof.
  induction video_files as [|f rest IH]; intros w tr Hparts Hres.
  - simpl. rewrite app_nil_r. reflexivity.
  - simpl in Hres.
    destruct (subprocess_run P (command_for target_dir f) w) as [r0 w0] eqn:Hrun.
    inversion Hres as [|? ? [c [-> Hc]] Hrest]; subst.
    inversion Hparts as [|? ? Hf Hrestparts]; subst.
    unfold remove_hun_audio_from_files in *. simpl for_each. unfold bind at 1.
    rewrite (remove_file_success P _ _ _ _ tr _ Hf Hrun Hc).
    rewrite (IH w0 (tr ++ success_events target_dir f) Hrestparts Hrest).
    simpl map. simpl world_after. rewrite Hrun. simpl snd.
    simpl flat_map. rewrite <- app_assoc. reflexivity.
Qed.

(** C5.  For every list of N files and a runner that exits with 0 on every
    command, the batch hands exactly N commands to the runner, one per file
    in the order of the list, and completes without raising: it returns in
    the world the runner reached after handling these N commands one after
    the other, and its trace holds, for each file in order, the two lines
    announcing it, the run of its command and the line reporting success. *)
Theorem batch_runs_every_file (P : Platform) (target_dir : Path)
        (video_files : list Path) (w : World P) (tr : list Event) :
  Forall (fun f => parts f <> []) video_files ->
  Forall exited_zero (run_all P (map (command_for target_dir) video_files) w) ->
  exists st',
    remove_hun_audio_from_files P video_files target_dir (mkState P w tr)
    = (inr tt, st')
    /\ world st' = world_after P (map (command_for target_dir) video_files) w
    /\ trace st' = tr ++ flat_map (success_events target_dir) video_files
    /\ runs_of (trace st') = runs_of tr ++ map (command_for target_dir) video_files
    /\ length (runs_of (trace st')) = length (runs_of tr) + length video_files.
Proof.
  intros Hparts Hres.
  eexists. split; [exact (batch_success_world P target_dir video_files w tr Hparts Hres)|].
  simpl world. simpl trace. split; [reflexivity|]. split; [reflexivity|].
  rewrite runs_of_app, runs_of_success_events. split; [reflexivity|].
  rewrite length_app, length_map. reflexivity.
Qed.

Lemma batch_runs_every_file_witness :
  exists st',
    remove_hun_audio_from_files Demo.platform
      [parse "/videos/source/a.mkv"; parse "/videos/source/b.MKV"]
      (parse "/videos/target")
      (Demo.start (Demo.machine [Demo.ok; Demo.ok; Demo.failed]))
    = (inr tt, st')
    /\ world st' = Demo.machine [Demo.failed]
    /\ trace st'
       = [] ++ flat_map (success_events (parse "/videos/target"))
                        [parse "/videos/source/a.mkv"; parse "/videos/source/b.MKV"]
    /\ runs_of (trace st')
       = [] ++ map (command_for (parse "/videos/target"))
                   [parse "/videos/source/a.mkv"; parse "/videos/source/b.MKV"]
    /\ length (runs_of (trace st')) = 0 + 2.
Proof.
  apply (batch_runs_every_file Demo.platform (parse "/videos/target")
           [parse "/videos/source/a.mkv"; parse "/videos/source/b.MKV"]
           (Demo.machine [Demo.ok; Demo.ok; Demo.failed]) []).
  - repeat constructor; discriminate.
  - repeat constructor; exists Demo.ok; split; reflexivity.
Defined.

(** ** What the abort error carries *)

(** Against C4 as stated: at a failing command the exception raised is a
    [RuntimeError] without arguments; neither the name of the file nor the
    text of the standard error of the process is in it. *)
Lemma abort_error_carries_nothing :
  exists e st',
    remove_hun_audio_from_files Demo.platform
      [parse "/videos/source/a.mkv"] (parse "/videos/target")
      (Demo.start (Demo.machine [Demo.failed]))
    = (inl e, st')
    /\ name (parse "/videos/source/a.mkv") = "a.mkv"
    /\ stderr Demo.failed = "Stream map '0:a:1' matches no streams."
    /\ carries e "a.mkv" = false
    /\ carries e "Stream map '0:a:1' matches no streams." = false.
Proof.
  eexists. eexists. split; [reflexivity|]. repeat split.
Qed.

(** C4, as the code has it.  Whenever the batch aborts because the command of
    a file exited non-zero, the error raised to the caller is a [RuntimeError]
    that carries no argument; the name of the file and the captured standard
    error are printed instead: the last four events of the run are the line
    naming the file, the line with the command, the run of the command, and
    the line with the standard error of the process. *)
Theorem abort_error_is_bare (P : Platform) (target_dir : Path)
        (video_files : list Path) (K : nat) (w : World P) (tr : list Event)
        (r : CompletedProcess) :
  let results := run_all P (map (command_for target_dir) video_files) w in
  Forall (fun f => parts f <> []) video_files ->
  1 <= K <= length video_files ->
  (forall j, j < K - 1 -> exists rj, nth_error results j = Some rj /\ exited_zero rj) ->
  nth_error results (K - 1) = Some (inr r) ->
  returncode r <> 0%Z ->
  exists e st' f before,
    remove_hun_audio_from_files P video_files target_dir (mkState P w tr) = (inl e, st')
    /\ e = RuntimeError []
    /\ exc_args e = []
    /\ nth_error video_files (K - 1) = Some f
    /\ trace st'
       = before
         ++ [EvPrint (Text ("Removing HUN audio from video " ++ name f)%string);
             EvPrint (TextList "Command arguments: " (command_for target_dir f));
             EvRun (command_for target_dir f);
             EvPrint (Text ("Process failed with this error message:"
                            ++ String "010" (stderr r))%string)].
Proof.
  intros results Hparts HK Hbefore Hres Hrc.
  destruct (nth_error video_files (K - 1)) as [f|] eqn:Hf.
  2:{ apply nth_error_None in Hf. lia. }
  destruct (batch_abort_at P target_dir video_files (K - 1) w tr f r
              Hparts Hf Hbefore Hres Hrc) as [w' Hbatch].
  exists (RuntimeError []). eexists. exists f.
  exists (tr ++ flat_map (success_events target_dir) (firstn (K - 1) video_files)).
  split; [exact Hbatch|]. repeat split.
  simpl trace. rewrite <- app_assoc. reflexivity.
Qed.

Lemma abort_error_is_bare_witness :
  exists e st' f before,
    remove_hun_audio_from_files Demo.platform
      [parse "/videos/source/a.mkv"; parse "/videos/source/b.MKV"]
      (parse "/videos/target")
      (mkState Demo.platform (Demo.machine [Demo.ok; Demo.failed]) [])
    = (inl e, st')
    /\ e = RuntimeError []
    /\ exc_args e = []
    /\ nth_error [parse "/videos/source/a.mkv"; parse "/videos/source/b.MKV"] (2 - 1)
       = Some f
    /\ trace st'
       = before
         ++ [EvPrint (Text ("Removing HUN audio from video " ++ name f)%string);
             EvPrint (TextList "Command arguments: "
                               (command_for (parse "/videos/target") f));
             EvRun (command_for (parse "/videos/target") f);
             EvPrint (Text ("Process failed with this error message:"
                            ++ String "010" (stderr Demo.failed))%string)].
Proof.
  apply (abort_error_is_bare Demo.platform (parse "/videos/target")
           [parse "/videos/source/a.mkv"; parse "/videos/source/b.MKV"]
           2 (Demo.machine [Demo.ok; Demo.failed]) [] Demo.failed).
  - repeat constructor; discriminate.
  - simpl; lia.
  - intros j Hj. assert (j = 0) as -> by (simpl in Hj; lia).
    exists (inr Demo.ok). split; [reflexivity|].
    exists Demo.ok. split; reflexivity.
  - reflexivity.
  - simpl. discriminate.
Defined.

(** ** Inspection *)

(** C8.  For every source file path [S] the inspection command is, in order:
    [ffprobe], [-v], [error], [-show_entries],
    [stream=index,codec_type:stream_tags=language], [-of], [json], and [S]
    last; [get_file_data] hands exactly this command to the runner. *)
Theorem inspection_command_vector (P : Platform) (S : Path) (st : State P) :
  ffprobe_command S
  = ["ffprobe"; "-v"; "error"; "-show_entries";
     "stream=index,codec_type:stream_tags=language"; "-of"; "json"; str S]
  /\ runs_of (trace (snd (get_file_data P S st)))
     = runs_of (trace st)
       ++ [["ffprobe"; "-v"; "error"; "-show_entries";
            "stream=index,codec_type:stream_tags=language"; "-of"; "json"; str S]].
Proof.
  split; [reflexivity|].
  destruct st as [w tr]. unfold get_file_data, bind, run, ret. simpl.
  change (FFMPEG_INSPECT_COMMAND_HEAD ++ [str S]) with (ffprobe_command S).
  destruct (subprocess_run P (ffprobe_command S) w) as [[e|r] w']; simpl.
  - rewrite runs_of_app. reflexivity.
  - destruct (returncode r =? 0)%Z; simpl; rewrite runs_of_app; reflexivity.
Qed.

(** C9.  For every file whose inspection command exits with a non-zero code,
    [get_file_data] returns the empty string and raises nothing; nothing is
    printed and the captured standard error is dropped (the only event is the
    run itself); and the value returned is the one returned when the tool
    exits with 0 after writing nothing, so a caller cannot tell the two
    apart. *)
Theorem failed_inspection_is_silent (P : Platform) (video_file : Path)
        (w w' : World P) (tr : list Event) (r : CompletedProcess) :
  subprocess_run P (ffprobe_command video_file) w = (inr r, w') ->
  returncode r <> 0%Z ->
  get_file_data P video_file (mkState P w tr)
  = (inr "", mkState P w' (tr ++ [EvRun (ffprobe_command video_file)]))
  /\ forall (w2 w2' : World P) (tr2 : list Event) (r2 : CompletedProcess),
      subprocess_run P (ffprobe_command video_file) w2 = (inr r2, w2') ->
      returncode r2 = 0%Z ->
      stdout r2 = "" ->
      fst (get_file_data P video_file (mkState P w2 tr2))
      = fst (get_file_data P video_file (mkState P w tr)).
Proof.
  intros Hrun Hrc. apply Z.eqb_neq in Hrc.
  assert (Hfail : get_file_data P video_file (mkState P w tr)
                  = (inr "", mkState P w' (tr ++ [EvRun (ffprobe_command video_file)]))).
  { unfold get_file_data, bind, run, ret. simpl. rewrite Hrun, Hrc. reflexivity. }
  split; [exact Hfail|].
  intros w2 w2' tr2 r2 Hrun2 Hrc2 Hout2. rewrite Hfail.
  unfold get_file_data, bind, run, ret. simpl. rewrite Hrun2, Hrc2. simpl.
  rewrite Hout2. reflexivity.
Qed.

Lemma failed_inspection_is_silent_witness :
  get_file_data Demo.platform (parse "/videos/source/a.mkv")
    (mkState Demo.platform (Demo.machine [Demo.failed]) [])
  = (inr "",
     mkState Demo.platform (Demo.machine [])
             ([] ++ [EvRun (ffprobe_command (parse "/videos/source/a.mkv"))])).
Proof.
  apply (failed_inspection_is_silent Demo.platform (parse "/videos/source/a.mkv")
           (Demo.machine [Demo.failed]) (Demo.machine []) [] Demo.failed).
  - reflexivity.
  - simpl. discriminate.
Defined.

(** ** The debugging pipeline *)

Section Pipeline.

Variable P : Platform.

Lemma get_file_data_launched (video_file : Path) (w w' : World P)
      (tr : list Event) (c : CompletedProcess) :
  subprocess_run P (ffprobe_command video_file) w = (inr c, w') ->
  get_file_data P video_file (mkState P w tr)
  = (inr (data_of c), mkState P w' (tr ++ [EvRun (ffprobe_command video_file)])).
Proof.
  intros Hrun. unfold get_file_data, bind, run, ret, data_of. simpl.
  rewrite Hrun. destruct (returncode c =? 0)%Z; reflexivity.
Qed.

(** When every inspection command is launched, the raw pass returns one
    string per file: the output of the tool, or [""] where it failed. *)
Lemma raw_pass_completes (video_files : list Path) :
  forall (w : World P) (tr : list Event),
    Forall launched (run_all P (map ffprobe_command video_files) w) ->
    exists raw st1,
      get_file_data_list_raw P video_files (mkState P w tr) = (inr raw, st1)
      /\ Forall2 (fun res d => exists c, res = inr c /\ d = data_of c)
                 (run_all P (map ffprobe_command video_files) w) raw.
Proof.
  induction video_files as [|f rest IH]; intros w tr Hall.
  - exists [], (mkState P w tr). split; [reflexivity | constructor].
  - simpl in Hall |- *.
    destruct (subprocess_run P (ffprobe_command f) w) as [r0 w0] eqn:Hrun.
    inversion Hall as [|? ? [c ->] Hrest]; subst.
    destruct (IH w0 (tr ++ [EvRun (ffprobe_command f)]) Hrest)
      as [raw [st1 [Hraw Hrel]]].
    exists (data_of c :: raw), st1. split.
    + unfold get_file_data_list_raw in *. simpl comprehension. unfold bind at 1.
      rewrite (get_file_data_launched f w w0 tr c Hrun).
      unfold bind at 1. rewrite Hraw. reflexivity.
    + constructor; [exists c; split; reflexivity | exact Hrel].
Qed.

(** One document that does not decode makes the whole conversion raise. *)
Lemma processed_data_raises (raw : list string) (st : State P) :
  forall (i : nat) (d : string) (e0 : PyExc),
    nth_error raw i = Some d ->
    json_loads P d = inl e0 ->
    exists e, get_processed_data P raw st = (inl e, st).
Proof.
  induction raw as [|x rest IH]; intros i d e0 Hd He0.
  - destruct i; discriminate.
  - unfold get_processed_data in *. simpl comprehension.
    unfold bind at 1, lift at 1.
    destruct (json_loads P x) as [e|v] eqn:Hx.
    + exists e. reflexivity.
    + destruct i as [|i]; simpl in Hd.
      * injection Hd as ->. congruence.
      * destruct (IH i d e0 Hd He0) as [e He].
        exists e. unfold bind at 1. rewrite He. reflexivity.
Qed.

End Pipeline.

(** C10.  For any list of files that contains a file whose inspection command
    exits non-zero, the raw pass completes and holds the empty string at the
    place of that file, and the conversion of its result raises, the empty
    string not being a JSON document: the pipeline of [get_file_data_list_raw]
    followed by [get_processed_data] raises an error. *)
Theorem pipeline_raises_on_failed_inspection (P : Platform)
        (video_files : list Path) (w : World P) (tr : list Event)
        (i : nat) (r : CompletedProcess) :
  let results := run_all P (map ffprobe_command video_files) w in
  json_loads P "" = inl JSONDecodeError ->
  Forall launched results ->
  nth_error results i = Some (inr r) ->
  returncode r <> 0%Z ->
  exists raw st1 e,
    get_file_data_list_raw P video_files (mkState P w tr) = (inr raw, st1)
    /\ nth_error raw i = Some ""
    /\ get_processed_data P raw st1 = (inl e, st1)
    /\ debug_pipeline P video_files (mkState P w tr) = (inl e, st1).
Proof.
  intros results Hjson Hall Hres Hrc.
  destruct (raw_pass_completes P video_files w tr Hall) as [raw [st1 [Hraw Hrel]]].
  assert (Hi : nth_error raw i = Some "").
  { fold results in Hrel. clear - Hrel Hres Hrc. revert i Hres.
    induction Hrel as [|res d rs ds [c [-> ->]] _ IH]; intros i Hres.
    - destruct i; discriminate.
    - destruct i as [|i]; simpl in Hres |- *.
      + injection Hres as ->. unfold data_of.
        apply Z.eqb_neq in Hrc. rewrite Hrc. reflexivity.
      + apply IH. exact Hres. }
  destruct (processed_data_raises P raw st1 i EmptyString JSONDecodeError Hi Hjson) as [e He].
  exists raw, st1, e. repeat split; try assumption.
  unfold debug_pipeline, bind. rewrite Hraw. exact He.
Qed.

Lemma pipeline_raises_on_failed_inspection_witness :
  exists raw st1 e,
    get_file_data_list_raw Demo.platform
      [parse "/videos/source/a.mkv"; parse "/videos/source/b.MKV"]
      (mkState Demo.platform
               (Demo.machine [mkCompleted 0 "<streams>" ""; Demo.failed]) [])
    = (inr raw, st1)
    /\ nth_error raw 1 = Some ""
    /\ get_processed_data Demo.platform raw st1 = (inl e, st1)
    /\ debug_pipeline Demo.platform
         [parse "/videos/source/a.mkv"; parse "/videos/source/b.MKV"]
         (mkState Demo.platform
                  (Demo.machine [mkCompleted 0 "<streams>" ""; Demo.failed]) [])
       = (inl e, st1).
Proof.
  apply (pipeline_raises_on_failed_inspection Demo.platform
           [parse "/videos/source/a.mkv"; parse "/videos/source/b.MKV"]
           (Demo.machine [mkCompleted 0 "<streams>" ""; Demo.failed]) []
           1 Demo.failed).
  - reflexivity.
  - repeat constructor; eexists; reflexivity.
  - reflexivity.
  - simpl. discriminate.
Defined.

(** ** Loading the configuration *)

Section Config.

Variable P : Platform.

Lemma load_json_from_file_ok (file_path : Path) (w : World P) (tr : list Event)
      (text : string) (doc : JSON) :
  path_exists P w file_path = true ->
  read_text P w file_path = inr text ->
  json_loads P text = inr doc ->
  load_json_from_file P file_path (mkState P w tr)
  = (inr doc, mkState P w (tr ++ [EvExists file_path; EvOpen file_path])).
Proof.
  intros Hex Hread Hjson.
  unfold load_json_from_file, bind, exists_, open_json_load, ret, raise. simpl.
  rewrite Hex. simpl. rewrite Hread, Hjson. rewrite <- app_assoc. reflexivity.
Qed.

(** Loading the module touches neither the world nor the runner nor any
    directory, whatever its outcome. *)
Lemma module_init_quiet (st st1 : State P) (res : PyExc + Globals) :
  module_init P st = (res, st1) ->
  world st1 = world st
  /\ runs_of (trace st1) = runs_of (trace st)
  /\ iterdirs_of (trace st1) = iterdirs_of (trace st).
Proof.
  destruct st as [w tr].
  unfold module_init, load_json_from_file, bind, lift, exists_, open_json_load,
    os_getcwd, os_environ_getitem, ret, raise.
  simpl.
  repeat match goal with
         | |- context [match ?x with _ => _ end] =>
             lazymatch x with
             | context [match _ with _ => _ end] => fail
             | _ => destruct x; simpl
             end
         end;
    intros H; inversion H; subst; simpl;
    repeat rewrite runs_of_app; repeat rewrite iterdirs_of_app; simpl;
    repeat rewrite app_nil_r; auto.
Qed.


(** A document that decodes to anything but a dict makes the first subscript
    raise [TypeError]. *)
Lemma config_not_a_dict (w : World P) (tr : list Event) (text : string) (doc : JSON) :
  path_exists P w (config_path P w) = true ->
  read_text P w (config_path P w) = inr text ->
  json_loads P text = inr doc ->
  (forall items, doc <> JObject items) ->
  exists st',
    script P (mkState P w tr) = (inl TypeError, st')
    /\ iterdirs_of (trace st') = iterdirs_of tr
    /\ runs_of (trace st') = runs_of tr.
Proof.
  intros Hex Hread Hjson Hdoc.
  assert (Hinit : exists st', module_init P (mkState P w tr) = (inl TypeError, st')).
  { unfold module_init, bind at 1, os_getcwd. simpl world.
    fold (config_path P w). unfold bind at 1.
    rewrite (load_json_from_file_ok (config_path P w) w tr text doc Hex Hread Hjson).
    unfold bind, lift, getitem.
    destruct doc; try (eexists; reflexivity).
    exfalso. eapply Hdoc. reflexivity. }
  destruct Hinit as [st' Hinit]. exists st'.
  split; [unfold script, bind; rewrite Hinit; reflexivity|].
  destruct (module_init_quiet _ _ _ Hinit) as [_ [Hruns Hdirs]]. auto.
Qed.

End Config.

(** C6.  For every configuration document that decodes to a dict but lacks
    one of the four required keys ([source_dir] among them), loading the
    module fails with a [KeyError] naming a required key the document lacks,
    the script stops there, and no directory is enumerated and no process
    run. *)
Theorem config_missing_key (P : Platform) (w : World P) (tr : list Event)
        (text : string) (items : list (string * JSON)) (key : string) :
  path_exists P w (config_path P w) = true ->
  read_text P w (config_path P w) = inr text ->
  json_loads P text = inr (JObject items) ->
  In key required_keys ->
  dict_get items key = None ->
  exists k st',
    module_init P (mkState P w tr) = (inl (KeyError k), st')
    /\ script P (mkState P w tr) = (inl (KeyError k), st')
    /\ In k required_keys
    /\ dict_get items k = None
    /\ iterdirs_of (trace st') = iterdirs_of tr
    /\ runs_of (trace st') = runs_of tr.
Proof.
  intros Hex Hread Hjson Hkey Hnone.
  assert (Hinit : exists k st',
             module_init P (mkState P w tr) = (inl (KeyError k), st')
             /\ In k required_keys /\ dict_get items k = None).
  { unfold module_init, bind at 1, os_getcwd. simpl world.
    fold (config_path P w). unfold bind at 1.
    rewrite (load_json_from_file_ok P (config_path P w) w tr text (JObject items) Hex Hread Hjson).
    unfold bind, lift, getitem. unfold required_keys in *.
    destruct (dict_get items "ffmpeg_dir") eqn:H1.
    2:{ do 2 eexists. split; [reflexivity|]. simpl; auto. }
    destruct (dict_get items "source_dir") eqn:H2.
    2:{ do 2 eexists. split; [reflexivity|]. simpl; auto. }
    destruct (dict_get items "target_dir") eqn:H3.
    2:{ do 2 eexists. split; [reflexivity|]. simpl; auto. }
    destruct (dict_get items "file_extension_filter") eqn:H4.
    2:{ do 2 eexists. split; [reflexivity|]. simpl; auto 6. }
    simpl in Hkey. destruct Hkey as [<-|[<-|[<-|[<-|[]]]]]; congruence. }
  destruct Hinit as [k [st' [Hinit [Hk Hknone]]]].
  exists k, st'. split; [exact Hinit|].
  split; [unfold script, bind; rewrite Hinit; reflexivity|].
  destruct (module_init_quiet P _ _ _ Hinit) as [_ [Hruns Hdirs]].
  auto.
Qed.

Lemma config_missing_key_witness :
  exists k st',
    module_init Demo.platform
      (mkState Demo.platform
         (Demo.mkDemo "/home/user/project" [("PATH", "/usr/bin")]
            [("/home/user/config.json", "<configuration without source_dir>")]
            [("/videos/source", ["a.mkv"])] [])
         [])
    = (inl (KeyError k), st')
    /\ script Demo.platform
         (mkState Demo.platform
            (Demo.mkDemo "/home/user/project" [("PATH", "/usr/bin")]
               [("/home/user/config.json", "<configuration without source_dir>")]
               [("/videos/source", ["a.mkv"])] [])
            [])
       = (inl (KeyError k), st')
    /\ In k required_keys
    /\ dict_get [("ffmpeg_dir", JString "/opt/ffmpeg/bin");
                 ("target_dir", JString "/videos/target");
                 ("file_extension_filter", JString "mkv")] k = None
    /\ iterdirs_of (trace st') = iterdirs_of []
    /\ runs_of (trace st') = runs_of [].
Proof.
  apply (config_missing_key Demo.platform
           (Demo.mkDemo "/home/user/project" [("PATH", "/usr/bin")]
              [("/home/user/config.json", "<configuration without source_dir>")]
              [("/videos/source", ["a.mkv"])] [])
           [] "<configuration without source_dir>"
           [("ffmpeg_dir", JString "/opt/ffmpeg/bin");
            ("target_dir", JString "/videos/target");
            ("file_extension_filter", JString "mkv")]
           "source_dir").
  - reflexivity.
  - reflexivity.
  - reflexivity.
  - simpl. auto.
  - reflexivity.
Defined.


Lemma setitem_PATH_nul (P : Platform) (value : string) (st : State P) :
  contains NUL value = true ->
  os_environ_setitem P "PATH" value st
  = (inl (ValueError ["embedded null byte"]), st).
Proof. intros H. unfold os_environ_setitem. simpl. rewrite H. reflexivity. Qed.

(** A search path holding a NUL stops the main block at the assignment:
    nothing is assigned, listed or run. *)
Lemma nul_in_search_path (P : Platform) (st st1 : State P) (g : Globals) :
  module_init P st = (inr g, st1) ->
  contains NUL (ENV_PATH g) = true ->
  script P st = (inl (ValueError ["embedded null byte"]), st1).
Proof.
  intros Hinit Hnul. unfold script, bind at 1. rewrite Hinit.
  unfold main, bind at 1. rewrite (setitem_PATH_nul P (ENV_PATH g) st1 Hnul).
  reflexivity.
Qed.




(** ** Enumerating the source directory *)

Lemma lower_char_idem (c : ascii) :
  PyStr.lower_char (PyStr.lower_char c) = PyStr.lower_char c.
Proof. destruct c as [[] [] [] [] [] [] [] []]; reflexivity. Qed.

Lemma lower_idem (s : string) : PyStr.lower (PyStr.lower s) = PyStr.lower s.
Proof.
  induction s as [|c s IH]; [reflexivity|].
  simpl. rewrite lower_char_idem, IH. reflexivity.
Qed.

(** With a filter written in lower case the test of the comprehension is the
    comparison of the suffix with ["." + extension] up to case. *)
Lemma extension_matches_lowercase (extension : string) (file : Path) :
  PyStr.lower extension = extension ->
  extension_matches extension file
  = PyStr.eq_nocase (suffix file) ("." ++ extension).
Proof.
  intros Hlow. unfold extension_matches, PyStr.eq_nocase.
  change (PyStr.lower ("." ++ extension)) with ("." ++ PyStr.lower extension)%string.
  rewrite Hlow. reflexivity.
Qed.

(** With any other filter the test fails for every file. *)
Lemma extension_matches_not_lowercase (extension : string) (file : Path) :
  PyStr.lower extension <> extension ->
  extension_matches extension file = false.
Proof.
  intros Hlow. unfold extension_matches. apply String.eqb_neq. intros Heq.
  apply Hlow.
  assert (H : PyStr.lower ("." ++ extension) = ("." ++ extension)%string).
  { rewrite <- Heq. apply lower_idem. }
  change (PyStr.lower ("." ++ extension)) with ("." ++ PyStr.lower extension)%string in H.
  injection H as H. exact H.
Qed.

(** Joining an anchored directory, or the empty path, with one of its own
    children gives the child back. *)
Lemma joinpath_child (dir_path : Path) (entry : string) :
  root dir_path <> "" \/ tail dir_path = [] ->
  joinpath dir_path (make_child_relpath dir_path entry)
  = make_child_relpath dir_path entry.
Proof.
  intros [Hroot|Htail]; unfold joinpath, make_child_relpath; simpl.
  - apply String.eqb_neq in Hroot. rewrite Hroot. reflexivity.
  - destruct (String.eqb (root dir_path) ""); [|reflexivity].
    rewrite Htail. reflexivity.
Qed.

(** Joining a relative directory with one of its own children repeats the
    components of the directory. *)
Lemma joinpath_child_relative (dir_path : Path) (entry : string) :
  root dir_path = "" ->
  joinpath dir_path (make_child_relpath dir_path entry)
  = mkPath "" (tail dir_path ++ tail dir_path ++ [entry]).
Proof.
  intros Hroot. unfold joinpath, make_child_relpath. simpl.
  rewrite Hroot. reflexivity.
Qed.

Lemma map_joinpath_children (dir_path : Path) (keep : Path -> bool)
      (entries : list string) :
  root dir_path <> "" \/ tail dir_path = [] ->
  map (joinpath dir_path) (filter keep (children dir_path entries))
  = filter keep (children dir_path entries).
Proof.
  intros Hdir. unfold children.
  induction entries as [|n l IH]; [reflexivity|].
  cbn [map filter]. destruct (keep (make_child_relpath dir_path n)).
  - cbn [map]. rewrite (joinpath_child dir_path n Hdir), IH. reflexivity.
  - exact IH.
Qed.

Section Enumeration.

Variable P : Platform.

(** What the function computes from the entries of the directory. *)
Lemma get_video_files_result (dir_path : Path) (extension : string)
      (w : World P) (tr : list Event) (entries : list string) :
  listdir P w dir_path = inr entries ->
  get_video_files_from_path P dir_path extension (mkState P w tr)
  = (inr (map (joinpath dir_path)
              (filter (extension_matches extension) (children dir_path entries))),
     mkState P w (tr ++ [EvIterdir dir_path])).
Proof.
  intros Hlist. unfold get_video_files_from_path, bind, iterdir, ret. simpl.
  rewrite Hlist. reflexivity.
Qed.

(** For an anchored directory (or the empty path) and a filter in lower case,
    the function returns exactly the children whose suffix is
    ["." + extension] up to case, as the paths of these children, in the order
    of the listing. *)
Lemma enumeration_exact (dir_path : Path) (extension : string)
      (w : World P) (tr : list Event) (entries : list string) :
  root dir_path <> "" \/ tail dir_path = [] ->
  PyStr.lower extension = extension ->
  listdir P w dir_path = inr entries ->
  get_video_files_from_path P dir_path extension (mkState P w tr)
  = (inr (filter (fun child => PyStr.eq_nocase (suffix child) ("." ++ extension))
                 (children dir_path entries)),
     mkState P w (tr ++ [EvIterdir dir_path])).
Proof.
  intros Hdir Hlow Hlist.
  rewrite (get_video_files_result dir_path extension w tr entries Hlist).
  f_equal. f_equal.
  rewrite (filter_ext _ _ (fun c => extension_matches_lowercase extension c Hlow)).
  apply map_joinpath_children. exact Hdir.
Qed.

(** The same, as a membership test. *)
Lemma enumeration_exact_iff (dir_path : Path) (extension : string)
      (w : World P) (tr : list Event) (entries : list string) :
  root dir_path <> "" \/ tail dir_path = [] ->
  PyStr.lower extension = extension ->
  listdir P w dir_path = inr entries ->
  exists files,
    fst (get_video_files_from_path P dir_path extension (mkState P w tr)) = inr files
    /\ forall p,
        In p files
        <-> In p (children dir_path entries)
            /\ PyStr.eq_nocase (suffix p) ("." ++ extension) = true.
Proof.
  intros Hdir Hlow Hlist.
  rewrite (enumeration_exact dir_path extension w tr entries Hdir Hlow Hlist).
  eexists. split; [reflexivity|]. intros p. apply filter_In.
Qed.

(** For a relative directory with at least one component, no path returned is
    a child of the directory. *)
Lemma relative_directory_returns_no_child (dir_path : Path) (extension : string)
      (w : World P) (tr : list Event) (entries : list string) (p : Path) :
  root dir_path = "" ->
  tail dir_path <> [] ->
  listdir P w dir_path = inr entries ->
  match fst (get_video_files_from_path P dir_path extension (mkState P w tr)) with
  | inr files => In p files -> ~ In p (children dir_path entries)
  | inl _ => False
  end.
Proof.
  intros Hroot Htail Hlist.
  rewrite (get_video_files_result dir_path extension w tr entries Hlist). simpl.
  intros Hin Hchild.
  apply in_map_iff in Hin. destruct Hin as [c [Hp Hc]].
  apply filter_In in Hc. destruct Hc as [Hc _].
  unfold children in Hc, Hchild.
  apply in_map_iff in Hc. destruct Hc as [n [<- _]].
  apply in_map_iff in Hchild. destruct Hchild as [n' [Hn' _]].
  rewrite (joinpath_child_relative dir_path n Hroot) in Hp. subst p.
  unfold make_child_relpath in Hn'. injection Hn' as _ Hlen.
  apply (f_equal (@length string)) in Hlen.
  repeat rewrite length_app in Hlen. simpl in Hlen.
  destruct (tail dir_path); [contradiction | simpl in Hlen; lia].
Qed.

(** For a filter that is not in lower case nothing is returned. *)
Lemma uppercase_filter_returns_nothing (dir_path : Path) (extension : string)
      (w : World P) (tr : list Event) (entries : list string) :
  PyStr.lower extension <> extension ->
  listdir P w dir_path = inr entries ->
  fst (get_video_files_from_path P dir_path extension (mkState P w tr)) = inr [].
Proof.
  intros Hlow Hlist.
  rewrite (get_video_files_result dir_path extension w tr entries Hlist). simpl.
  f_equal. induction (children dir_path entries) as [|c l IH]; [reflexivity|].
  simpl. rewrite (extension_matches_not_lowercase extension c Hlow). exact IH.
Qed.

End Enumeration.

(** C1, at a relative directory.  The directory [videos] holds the single
    entry [a.mkv] and the filter is [mkv]: the claim asks for the path of the
    child, [videos/a.mkv]; the function returns [videos/videos/a.mkv], which
    is not a child of the directory. *)
Theorem enumeration_of_relative_directory :
  listdir Demo.platform (Demo.machine []) (parse "videos") = inr ["a.mkv"]
  /\ children (parse "videos") ["a.mkv"] = [parse "videos/a.mkv"]
  /\ PyStr.eq_nocase (suffix (parse "videos/a.mkv")) ".mkv" = true
  /\ fst (get_video_files_from_path Demo.platform (parse "videos") "mkv"
            (Demo.start (Demo.machine [])))
     = inr [parse "videos/videos/a.mkv"]
  /\ ~ In (parse "videos/videos/a.mkv") (children (parse "videos") ["a.mkv"]).
Proof.
  repeat split. intros [H|[]]. discriminate H.
Qed.

(** The same function with the filter [MKV]: the entries [a.mkv], [b.MKV]
    and [c.mkv] of [/videos/source] all have the extension [.MKV] up to case,
    and none is returned. *)
Lemma enumeration_with_uppercase_filter :
  listdir Demo.platform (Demo.machine []) (parse "/videos/source")
  = inr ["a.mkv"; "b.MKV"; "notes.txt"; "c.mkv"]
  /\ filter (fun child => PyStr.eq_nocase (suffix child) ".MKV")
            (children (parse "/videos/source") ["a.mkv"; "b.MKV"; "notes.txt"; "c.mkv"])
     = [parse "/videos/source/a.mkv"; parse "/videos/source/b.MKV";
        parse "/videos/source/c.mkv"]
  /\ fst (get_video_files_from_path Demo.platform (parse "/videos/source") "MKV"
            (Demo.start (Demo.machine [])))
     = inr [].
Proof. repeat split. Qed.

(** ** The suffix of a name and the extension filter *)

Lemma rfind_from_absent (c : ascii) (s : string) :
  forall i last, contains c s = false -> PyStr.rfind_from c s i last = last.
Proof.
  induction s as [|a s IH]; intros i last H; [reflexivity|].
  simpl in H |- *. apply orb_false_iff in H. destruct H as [Ha Hs].
  rewrite Ha. apply IH. exact Hs.
Qed.

Lemma rfind_from_last (c : ascii) (a b : string) :
  forall i last,
    contains c b = false ->
    PyStr.rfind_from c (a ++ String c b) i last = (i + PyStr.len a)%Z.
Proof.
  induction a as [|x a IH]; intros i last Hb.
  - simpl. rewrite Ascii.eqb_refl, (rfind_from_absent c b (i + 1) i Hb).
    unfold PyStr.len. simpl. lia.
  - simpl. rewrite (IH (i + 1)%Z _ Hb). unfold PyStr.len. simpl String.length. lia.
Qed.

(** A string holds no [c], or splits at its last [c]. *)
Lemma split_at_last (c : ascii) (s : string) :
  contains c s = false
  \/ exists a b, s = (a ++ String c b)%string /\ contains c b = false.
Proof.
  induction s as [|x s IH]; [left; reflexivity|].
  destruct IH as [Hs | [a [b [-> Hb]]]].
  - destruct (Ascii.eqb x c) eqn:Hx.
    + right. exists "", s. apply Ascii.eqb_eq in Hx. subst x. split; [reflexivity | exact Hs].
    + left. simpl. rewrite Hx, Hs. reflexivity.
  - right. exists (String x a), b. split; [reflexivity | exact Hb].
Qed.

Lemma substring_all (s : string) : String.substring 0 (String.length s) s = s.
Proof. induction s as [|c s IH]; [reflexivity|]. simpl. rewrite IH. reflexivity. Qed.

Lemma slice_from_app (a t : string) : PyStr.slice_from (PyStr.len a) (a ++ t) = t.
Proof.
  unfold PyStr.slice_from, PyStr.len. rewrite Nat2Z.id.
  induction a as [|x a IH]; simpl.
  - rewrite Nat.sub_0_r. apply substring_all.
  - exact IH.
Qed.

Lemma length_append (a b : string) :
  String.length (a ++ b) = String.length a + String.length b.
Proof. induction a as [|x a IH]; simpl; [reflexivity | rewrite IH; reflexivity]. Qed.

(** The suffix of a path whose name holds no dot is empty. *)
Lemma suffix_without_dot (p : Path) :
  contains "."%char (name p) = false -> suffix p = "".
Proof.
  intros H. unfold suffix, PyStr.rfind.
  rewrite (rfind_from_absent "."%char (name p) 0 (-1) H). reflexivity.
Qed.

(** The suffix of a path whose name splits at its last dot into [a] and [b]:
    the dot and [b] when neither [a] nor [b] is empty, nothing otherwise. *)
Lemma suffix_at_last_dot (p : Path) (a b : string) :
  name p = (a ++ String "."%char b)%string ->
  contains "."%char b = false ->
  suffix p = match a, b with
             | EmptyString, _ | _, EmptyString => ""
             | _, _ => String "."%char b
             end.
Proof.
  intros Hname Hb. unfold suffix, PyStr.rfind. rewrite Hname.
  rewrite (rfind_from_last "."%char a b 0 (-1) Hb).
  change (0 + PyStr.len a)%Z with (PyStr.len a).
  rewrite slice_from_app.
  unfold PyStr.len. rewrite length_append. simpl String.length.
  destruct a as [|x a]; [reflexivity|].
  destruct b as [|y b].
  - simpl String.length.
    replace (Z.of_nat (S (String.length a)) <? Z.of_nat (S (String.length a) + 1) - 1)%Z
      with false by (symmetry; apply Z.ltb_ge; lia).
    rewrite andb_false_r. reflexivity.
  - simpl String.length.
    replace (0 <? Z.of_nat (S (String.length a)))%Z
      with true by (symmetry; apply Z.ltb_lt; lia).
    replace (Z.of_nat (S (String.length a))
             <? Z.of_nat (S (String.length a) + S (S (String.length b))) - 1)%Z
      with true by (symmetry; apply Z.ltb_lt; lia).
    reflexivity.
Qed.

Lemma lower_char_dot (c : ascii) :
  Ascii.eqb (PyStr.lower_char c) "."%char = Ascii.eqb c "."%char.
Proof. destruct c as [[] [] [] [] [] [] [] []]; reflexivity. Qed.

Lemma contains_dot_lower (s : string) :
  contains "."%char (PyStr.lower s) = contains "."%char s.
Proof.
  induction s as [|c s IH]; [reflexivity|].
  simpl. rewrite lower_char_dot, IH. reflexivity.
Qed.

Lemma lower_empty (s : string) : PyStr.lower s = "" -> s = "".
Proof. destruct s; [reflexivity | discriminate]. Qed.

(** A file that passes the test has a name made of a stem, a dot and an
    extension whose lower-casing is the filter. *)
Lemma extension_matches_elim (extension : string) (file : Path) :
  extension_matches extension file = true ->
  exists stem ext,
    name file = (stem ++ "." ++ ext)%string
    /\ stem <> "" /\ ext <> ""
    /\ contains "."%char ext = false
    /\ PyStr.lower ext = extension.
Proof.
  unfold extension_matches. intros H. apply String.eqb_eq in H.
  destruct (split_at_last "."%char (name file)) as [Hno | [a [b [Hname Hb]]]].
  - rewrite (suffix_without_dot file Hno) in H. discriminate H.
  - rewrite (suffix_at_last_dot file a b Hname Hb) in H.
    destruct a as [|x a]; [discriminate H|].
    destruct b as [|y b]; [discriminate H|].
    exists (String x a), (String y b).
    repeat split; try discriminate; try assumption.
    simpl in H. injection H as H. simpl. exact H.
Qed.

Lemma extension_matches_intro (file : Path) (stem ext : string) :
  name file = (stem ++ "." ++ ext)%string ->
  stem <> "" -> ext <> "" ->
  contains "."%char ext = false ->
  extension_matches (PyStr.lower ext) file = true.
Proof.
  intros Hname Hstem Hext Hdot. unfold extension_matches.
  rewrite (suffix_at_last_dot file stem ext Hname Hdot).
  destruct stem as [|x stem]; [contradiction|].
  destruct ext as [|y ext]; [contradiction|].
  apply String.eqb_eq. reflexivity.
Qed.

(** X6.  For names and filters that are strings of the model (all code
    points below 256, lower-cased as Python does), a file passes the test of
    the comprehension exactly when its name is a non-empty stem, a dot, and a
    non-empty extension without a dot whose lower-casing is the filter
    string. *)
Theorem extension_filter_characterised (extension : string) (file : Path) :
  extension_matches extension file = true
  <-> exists stem ext,
        name file = (stem ++ "." ++ ext)%string
        /\ stem <> "" /\ ext <> ""
        /\ contains "."%char ext = false
        /\ PyStr.lower ext = extension.
Proof.
  split.
  - apply extension_matches_elim.
  - intros [stem [ext [Hname [Hstem [Hext [Hdot <-]]]]]].
    exact (extension_matches_intro file stem ext Hname Hstem Hext Hdot).
Qed.

Lemma degenerate_filter_matches_no_file (extension : string) (file : Path) :
  extension = "" \/ contains "."%char extension = true
  \/ PyStr.lower extension <> extension ->
  extension_matches extension file = false.
Proof.
  intros Hdeg. destruct (extension_matches extension file) eqn:Hm; [|reflexivity].
  exfalso.
  destruct (extension_matches_elim extension file Hm)
    as [stem [ext [_ [_ [Hext [Hdot Hlow]]]]]].
  destruct Hdeg as [He | [He | He]].
  - rewrite He in Hlow. apply Hext. apply lower_empty. exact Hlow.
  - rewrite <- Hlow, contains_dot_lower, Hdot in He. discriminate He.
  - apply He. rewrite <- Hlow. apply lower_idem.
Qed.

(** X7.  With a filter that is empty, holds a dot, or is not in lower case,
    the enumeration returns the empty list whatever the directory holds. *)
Theorem degenerate_filter_selects_nothing (P : Platform) (dir_path : Path)
        (extension : string) (w : World P) (tr : list Event) (entries : list string) :
  extension = "" \/ contains "."%char extension = true
  \/ PyStr.lower extension <> extension ->
  listdir P w dir_path = inr entries ->
  get_video_files_from_path P dir_path extension (mkState P w tr)
  = (inr [], mkState P w (tr ++ [EvIterdir dir_path])).
Proof.
  intros Hdeg Hlist.
  rewrite (get_video_files_result P dir_path extension w tr entries Hlist).
  f_equal. f_equal.
  induction (children dir_path entries) as [|c l IH]; [reflexivity|].
  simpl. rewrite (degenerate_filter_matches_no_file extension c Hdeg). exact IH.
Qed.

Lemma degenerate_filter_selects_nothing_witness :
  get_video_files_from_path Demo.platform (parse "/videos/source") "tar.gz"
    (mkState Demo.platform (Demo.machine []) [])
  = (inr [], mkState Demo.platform (Demo.machine [])
                     ([] ++ [EvIterdir (parse "/videos/source")])).
Proof.
  apply (degenerate_filter_selects_nothing Demo.platform (parse "/videos/source")
           "tar.gz" (Demo.machine []) []
           ["a.mkv"; "b.MKV"; "notes.txt"; "c.mkv"]).
  - right. left. reflexivity.
  - reflexivity.
Defined.

(** X8.  A file whose name holds no dot, starts with its only dot (a hidden
    file such as [.mkv]) or ends with a dot is never selected, whatever the
    filter. *)
Theorem names_without_suffix_never_match (extension : string) (file : Path) :
  contains "."%char (name file) = false
  \/ (exists x, name file = ("." ++ x)%string /\ contains "."%char x = false)
  \/ (exists a, name file = (a ++ ".")%string) ->
  extension_matches extension file = false.
Proof.
  intros H.
  assert (Hsuffix : suffix file = "").
  { destruct H as [H | [[x [Hname Hx]] | [a Hname]]].
    - apply suffix_without_dot. exact H.
    - rewrite (suffix_at_last_dot file "" x Hname Hx). reflexivity.
    - rewrite (suffix_at_last_dot file a "" Hname eq_refl).
      destruct a; reflexivity. }
  unfold extension_matches. rewrite Hsuffix. reflexivity.
Qed.

Lemma names_without_suffix_never_match_witness :
  extension_matches "mkv" (parse "/videos/source/.mkv") = false.
Proof.
  apply (names_without_suffix_never_match "mkv" (parse "/videos/source/.mkv")).
  right. left. exists "mkv". split; reflexivity.
Defined.

(** ** The files the enumeration returns *)

Lemma joined_child_name (dir_path : Path) (entry : string) :
  name (joinpath dir_path (make_child_relpath dir_path entry)) = entry
  /\ tail (joinpath dir_path (make_child_relpath dir_path entry)) <> [].
Proof.
  unfold joinpath, make_child_relpath, name. simpl.
  destruct (String.eqb (root dir_path) ""); simpl.
  - split.
    + rewrite app_assoc. apply last_last.
    + intros H. apply app_eq_nil in H. destruct H as [_ H].
      apply app_eq_nil in H. destruct H as [_ H]. discriminate H.
  - split.
    + apply last_last.
    + intros H. apply app_eq_nil in H. destruct H as [_ H]. discriminate H.
Qed.

Lemma tail_parts (p : Path) : tail p <> [] -> parts p <> [].
Proof.
  intros H. unfold parts. destruct (String.eqb (root p) ""); [exact H | discriminate].
Qed.

Lemma selected_files_names (dir_path : Path) (extension : string)
      (entries : list string) :
  map name (selected_files dir_path extension entries)
  = filter (fun entry => extension_matches extension (make_child_relpath dir_path entry))
           entries
  /\ Forall (fun f => parts f <> []) (selected_files dir_path extension entries).
Proof.
  unfold selected_files, children.
  induction entries as [|n l [IHn IHp]]; [split; [reflexivity | constructor]|].
  cbn [map filter].
  destruct (extension_matches extension (make_child_relpath dir_path n)).
  - cbn [map]. destruct (joined_child_name dir_path n) as [Hn Ht].
    split.
    + rewrite Hn, IHn. reflexivity.
    + constructor; [apply tail_parts; exact Ht | exact IHp].
  - split; assumption.
Qed.

(** X9.  For every directory, anchored or relative, the base names of the
    files the enumeration returns are the names of the matching entries, in
    the order of the listing; every returned path therefore has a last part,
    and the subscript [parts[-1]] of the batch cannot fail on it. *)
Theorem enumeration_keeps_entry_names (P : Platform) (dir_path : Path)
        (extension : string) (w : World P) (tr : list Event) (entries : list string) :
  listdir P w dir_path = inr entries ->
  exists files,
    fst (get_video_files_from_path P dir_path extension (mkState P w tr)) = inr files
    /\ map name files
       = filter (fun entry =>
                   extension_matches extension (make_child_relpath dir_path entry))
                entries
    /\ Forall (fun f => exists base, parts_last f = inr base /\ base = name f) files.
Proof.
  intros Hlist.
  rewrite (get_video_files_result P dir_path extension w tr entries Hlist).
  exists (selected_files dir_path extension entries).
  split; [reflexivity|].
  destruct (selected_files_names dir_path extension entries) as [Hnames _].
  split; [exact Hnames|].
  unfold selected_files, children. apply Forall_forall. intros f Hf.
  apply in_map_iff in Hf. destruct Hf as [c [<- Hc]].
  apply filter_In in Hc. destruct Hc as [Hc _].
  apply in_map_iff in Hc. destruct Hc as [n [<- _]].
  destruct (joined_child_name dir_path n) as [_ Ht].
  eexists. split; [apply parts_last_name; exact Ht | reflexivity].
Qed.

Lemma enumeration_keeps_entry_names_witness :
  exists files,
    fst (get_video_files_from_path Demo.platform (parse "videos") "mkv"
           (mkState Demo.platform (Demo.machine []) []))
    = inr files
    /\ map name files
       = filter (fun entry =>
                   extension_matches "mkv" (make_child_relpath (parse "videos") entry))
                ["a.mkv"]
    /\ Forall (fun f => exists base, parts_last f = inr base /\ base = name f) files.
Proof.
  apply (enumeration_keeps_entry_names Demo.platform (parse "videos") "mkv"
           (Demo.machine []) [] ["a.mkv"]).
  reflexivity.
Defined.

(** ** Loading the module: the remaining outcomes *)

Lemma setenvs_of_app (a b : list Event) :
  setenvs_of (a ++ b) = setenvs_of a ++ setenvs_of b.
Proof. unfold setenvs_of. apply flat_map_app. Qed.

Lemma opens_of_app (a b : list Event) : opens_of (a ++ b) = opens_of a ++ opens_of b.
Proof. unfold opens_of. apply flat_map_app. Qed.

Lemma printed_of_app (a b : list Event) :
  printed_of (a ++ b) = printed_of a ++ printed_of b.
Proof. unfold printed_of. apply flat_map_app. Qed.

(** Loading the module only tests the configuration file and, when it is
    there, opens it. *)
Lemma module_init_events (P : Platform) (st st1 : State P) (res : PyExc + Globals) :
  module_init P st = (res, st1) ->
  world st1 = world st
  /\ (trace st1 = trace st ++ [EvExists (config_path P (world st))]
      \/ trace st1 = trace st ++ [EvExists (config_path P (world st));
                                  EvOpen (config_path P (world st))]).
Proof.
  destruct st as [w tr].
  unfold module_init, load_json_from_file, bind, lift, exists_, open_json_load,
    os_getcwd, os_environ_getitem, ret, raise.
  simpl. fold (config_path P w).
  repeat match goal with
         | |- context [match ?x with _ => _ end] =>
             lazymatch x with
             | context [match _ with _ => _ end] => fail
             | _ => destruct x; simpl
             end
         end;
    intros H; inversion H; subst; simpl; split; try reflexivity;
    rewrite <- ?app_assoc; simpl; auto.
Qed.

(** X1.  When the configuration file does not exist, the script fails with a
    [FileNotFoundError] whose message names the file, after the existence
    test alone: the file is not opened, the environment is not changed, no
    directory is listed and no process is run. *)
Theorem missing_config_file (P : Platform) (w : World P) (tr : list Event) :
  path_exists P w (config_path P w) = false ->
  script P (mkState P w tr)
  = (inl (FileNotFoundError
            ["File '" ++ str (config_path P w) ++ "' does not exist."]%string),
     mkState P w (tr ++ [EvExists (config_path P w)])).
Proof.
  intros Hmissing.
  unfold script, module_init, load_json_from_file, bind, exists_, os_getcwd, raise.
  simpl. fold (config_path P w). rewrite Hmissing. reflexivity.
Qed.

Lemma missing_config_file_witness :
  script Demo.platform
    (mkState Demo.platform
       (Demo.mkDemo "/home/user/project" [("PATH", "/usr/bin")] []
                    [("/videos/source", ["a.mkv"])] [Demo.ok])
       [])
  = (inl (FileNotFoundError ["File '/home/user/config.json' does not exist."]),
     mkState Demo.platform
       (Demo.mkDemo "/home/user/project" [("PATH", "/usr/bin")] []
                    [("/videos/source", ["a.mkv"])] [Demo.ok])
       [EvExists (parse "/home/user/config.json")]).
Proof.
  apply (missing_config_file Demo.platform
           (Demo.mkDemo "/home/user/project" [("PATH", "/usr/bin")] []
                        [("/videos/source", ["a.mkv"])] [Demo.ok])
           []).
  reflexivity.
Defined.

(** X2.  Whatever makes the loading of the module fail, the script fails with
    the same error in the same state: the world is the one it started in, and
    no environment assignment, directory listing or process run was made. *)
Theorem failed_load_stops_the_script (P : Platform) (st st1 : State P) (e : PyExc) :
  module_init P st = (inl e, st1) ->
  script P st = (inl e, st1)
  /\ world st1 = world st
  /\ setenvs_of (trace st1) = setenvs_of (trace st)
  /\ iterdirs_of (trace st1) = iterdirs_of (trace st)
  /\ runs_of (trace st1) = runs_of (trace st).
Proof.
  intros Hinit.
  split; [unfold script, bind; rewrite Hinit; reflexivity|].
  destruct (module_init_events P st st1 (inl e) Hinit) as [Hw [Ht | Ht]];
    rewrite Ht, setenvs_of_app, iterdirs_of_app, runs_of_app; simpl;
    repeat rewrite app_nil_r; auto.
Qed.

Lemma failed_load_stops_the_script_witness :
  script Demo.platform
    (mkState Demo.platform
       (Demo.mkDemo "/home/user/project" [("PATH", "/usr/bin")]
                    [("/home/user/config.json", "not a document")]
                    [("/videos/source", ["a.mkv"])] [Demo.ok])
       [])
  = (inl JSONDecodeError,
     mkState Demo.platform
       (Demo.mkDemo "/home/user/project" [("PATH", "/usr/bin")]
                    [("/home/user/config.json", "not a document")]
                    [("/videos/source", ["a.mkv"])] [Demo.ok])
       [EvExists (parse "/home/user/config.json");
        EvOpen (parse "/home/user/config.json")]).
Proof.
  apply (failed_load_stops_the_script Demo.platform
           (mkState Demo.platform
              (Demo.mkDemo "/home/user/project" [("PATH", "/usr/bin")]
                           [("/home/user/config.json", "not a document")]
                           [("/videos/source", ["a.mkv"])] [Demo.ok])
              [])).
  reflexivity.
Defined.

Section Loading.

Variable P : Platform.
Variables (w : World P) (tr : list Event) (text : string).
Variable items : list (string * JSON).

Hypothesis config_exists : path_exists P w (config_path P w) = true.
Hypothesis config_read : read_text P w (config_path P w) = inr text.
Hypothesis config_decoded : json_loads P text = inr (JObject items).

(** The module after the four subscripts of lines 34 to 37. *)
Lemma module_init_after_subscripts (vd vs vt ext : JSON) :
  dict_get items "ffmpeg_dir" = Some vd ->
  dict_get items "source_dir" = Some vs ->
  dict_get items "target_dir" = Some vt ->
  dict_get items "file_extension_filter" = Some ext ->
  module_init P (mkState P w tr)
  = bind (lift (add_str vd pathsep))
         (fun head =>
            bind (os_environ_getitem P "PATH")
                 (fun path =>
                    bind (lift (Path_ vs))
                         (fun source_path =>
                            bind (lift (Path_ vt))
                                 (fun target_path =>
                                    ret (mkGlobals (JObject items) vd vs vt ext
                                                   (head ++ path)%string
                                                   source_path target_path)))))
         (mkState P w (tr ++ [EvExists (config_path P w); EvOpen (config_path P w)])).
Proof.
  intros Hd Hs Ht He.
  unfold module_init, bind at 1, os_getcwd. simpl world.
  fold (config_path P w). unfold bind at 1.
  rewrite (load_json_from_file_ok P (config_path P w) w tr text (JObject items)
             config_exists config_read config_decoded).
  unfold bind at 1, lift at 1, getitem. rewrite Hd.
  unfold bind at 1, lift at 1. rewrite Hs.
  unfold bind at 1, lift at 1. rewrite Ht.
  unfold bind at 1, lift at 1. rewrite He.
  reflexivity.
Qed.

End Loading.

Lemma append_assoc (a b c : string) : ((a ++ b) ++ c = a ++ b ++ c)%string.
Proof. induction a as [|x a IH]; simpl; [reflexivity | rewrite IH; reflexivity]. Qed.

(** X3.  A configuration that is a dict holding the four keys, with strings
    for the three directories, loads when [PATH] is set: the search path
    built is the tool directory, [os.pathsep] and the old [PATH], the source
    and target paths are the parsed entries, and the filter entry is taken as
    it is, whatever its type.  The world is left as it was. *)
Theorem module_loads (P : Platform) (w : World P) (tr : list Event)
        (text : string) (items : list (string * JSON))
        (ffmpeg_dir source_dir target_dir path : string) (ext : JSON) :
  path_exists P w (config_path P w) = true ->
  read_text P w (config_path P w) = inr text ->
  json_loads P text = inr (JObject items) ->
  dict_get items "ffmpeg_dir" = Some (JString ffmpeg_dir) ->
  dict_get items "source_dir" = Some (JString source_dir) ->
  dict_get items "target_dir" = Some (JString target_dir) ->
  dict_get items "file_extension_filter" = Some ext ->
  environ_get P w "PATH" = Some path ->
  module_init P (mkState P w tr)
  = (inr (mkGlobals (JObject items) (JString ffmpeg_dir) (JString source_dir)
                    (JString target_dir) ext
                    (ffmpeg_dir ++ ":" ++ path)%string
                    (parse source_dir) (parse target_dir)),
     mkState P w (tr ++ [EvExists (config_path P w); EvOpen (config_path P w)])).
Proof.
  intros Hex Hread Hjson Hd Hs Ht He Hpath.
  rewrite (module_init_after_subscripts P w tr text items Hex Hread Hjson
             (JString ffmpeg_dir) (JString source_dir) (JString target_dir) ext
             Hd Hs Ht He).
  unfold bind, lift, add_str, os_environ_getitem, Path_, ret, pathsep. simpl.
  rewrite Hpath, append_assoc. reflexivity.
Qed.

Lemma module_loads_witness :
  module_init Demo.platform (mkState Demo.platform (Demo.machine []) [])
  = (inr (mkGlobals Demo.full_config (JString "/opt/ffmpeg/bin")
                    (JString "/videos/source") (JString "/videos/target")
                    (JString "mkv")
                    ("/opt/ffmpeg/bin" ++ ":" ++ "/usr/bin")%string
                    (parse "/videos/source") (parse "/videos/target")),
     mkState Demo.platform (Demo.machine [])
             ([] ++ [EvExists (config_path Demo.platform (Demo.machine []));
                     EvOpen (config_path Demo.platform (Demo.machine []))])).
Proof.
  apply (module_loads Demo.platform (Demo.machine []) [] "<full configuration>"
           [("ffmpeg_dir", JString "/opt/ffmpeg/bin");
            ("source_dir", JString "/videos/source");
            ("target_dir", JString "/videos/target");
            ("file_extension_filter", JString "mkv")]
           "/opt/ffmpeg/bin" "/videos/source" "/videos/target" "/usr/bin"
           (JString "mkv")); reflexivity.
Defined.

(** X4.  A configuration holding the four keys in which the tool, source or
    target directory is not a string makes the script fail with [TypeError]
    while the module is loaded (with [PATH] set): nothing is assigned to the
    environment, listed or run. *)
Theorem config_wrong_type (P : Platform) (w : World P) (tr : list Event)
        (text : string) (items : list (string * JSON))
        (vd vs vt ext : JSON) (path : string) :
  path_exists P w (config_path P w) = true ->
  read_text P w (config_path P w) = inr text ->
  json_loads P text = inr (JObject items) ->
  dict_get items "ffmpeg_dir" = Some vd ->
  dict_get items "source_dir" = Some vs ->
  dict_get items "target_dir" = Some vt ->
  dict_get items "file_extension_filter" = Some ext ->
  environ_get P w "PATH" = Some path ->
  (forall s, vd <> JString s) \/ (forall s, vs <> JString s)
  \/ (forall s, vt <> JString s) ->
  script P (mkState P w tr)
  = (inl TypeError,
     mkState P w (tr ++ [EvExists (config_path P w); EvOpen (config_path P w)])).
Proof.
  intros Hex Hread Hjson Hd Hs Ht He Hpath Hbad.
  unfold script, bind at 1.
  rewrite (module_init_after_subscripts P w tr text items Hex Hread Hjson
             vd vs vt ext Hd Hs Ht He).
  unfold bind, lift, add_str, os_environ_getitem, Path_, ret. simpl.
  rewrite Hpath.
  destruct vd as [| | | |d| |]; try reflexivity.
  destruct vs as [| | | |s| |]; try reflexivity.
  destruct vt as [| | | |t| |]; try reflexivity.
  exfalso. destruct Hbad as [H | [H | H]]; eapply H; reflexivity.
Qed.

Lemma config_wrong_type_witness :
  script platform_with_number
    (mkState platform_with_number
       (Demo.mkDemo "/home/user/project" [("PATH", "/usr/bin")]
                    [("/home/user/config.json", "<numbers>")] [] [Demo.ok])
       [])
  = (inl TypeError,
     mkState platform_with_number
       (Demo.mkDemo "/home/user/project" [("PATH", "/usr/bin")]
                    [("/home/user/config.json", "<numbers>")] [] [Demo.ok])
       ([] ++ [EvExists (parse "/home/user/config.json");
               EvOpen (parse "/home/user/config.json")])).
Proof.
  apply (config_wrong_type platform_with_number
           (Demo.mkDemo "/home/user/project" [("PATH", "/usr/bin")]
                        [("/home/user/config.json", "<numbers>")] [] [Demo.ok])
           [] "<numbers>"
           [("ffmpeg_dir", JString "/opt/ffmpeg/bin");
            ("source_dir", JInt 5);
            ("target_dir", JString "/videos/target");
            ("file_extension_filter", JString "mkv")]
           (JString "/opt/ffmpeg/bin") (JInt 5) (JString "/videos/target")
           (JString "mkv") "/usr/bin"); try reflexivity.
  right. left. intros s H. discriminate H.
Defined.

(** X5.  With a well-typed tool directory and no [PATH] in the environment,
    the script fails with [KeyError('PATH')] while the module is loaded,
    before the source and target paths are built. *)
Theorem missing_PATH (P : Platform) (w : World P) (tr : list Event)
        (text : string) (items : list (string * JSON))
        (ffmpeg_dir : string) (vs vt ext : JSON) :
  path_exists P w (config_path P w) = true ->
  read_text P w (config_path P w) = inr text ->
  json_loads P text = inr (JObject items) ->
  dict_get items "ffmpeg_dir" = Some (JString ffmpeg_dir) ->
  dict_get items "source_dir" = Some vs ->
  dict_get items "target_dir" = Some vt ->
  dict_get items "file_extension_filter" = Some ext ->
  environ_get P w "PATH" = None ->
  script P (mkState P w tr)
  = (inl (KeyError "PATH"),
     mkState P w (tr ++ [EvExists (config_path P w); EvOpen (config_path P w)])).
Proof.
  intros Hex Hread Hjson Hd Hs Ht He Hpath.
  unfold script, bind at 1.
  rewrite (module_init_after_subscripts P w tr text items Hex Hread Hjson
             (JString ffmpeg_dir) vs vt ext Hd Hs Ht He).
  unfold bind, lift, add_str, os_environ_getitem. simpl.
  rewrite Hpath. reflexivity.
Qed.

Lemma missing_PATH_witness :
  script Demo.platform
    (mkState Demo.platform
       (Demo.mkDemo "/home/user/project" []
                    [("/home/user/config.json", "<full configuration>")]
                    [("/videos/source", ["a.mkv"])] [Demo.ok])
       [])
  = (inl (KeyError "PATH"),
     mkState Demo.platform
       (Demo.mkDemo "/home/user/project" []
                    [("/home/user/config.json", "<full configuration>")]
                    [("/videos/source", ["a.mkv"])] [Demo.ok])
       ([] ++ [EvExists (parse "/home/user/config.json");
               EvOpen (parse "/home/user/config.json")])).
Proof.
  apply (missing_PATH Demo.platform
           (Demo.mkDemo "/home/user/project" []
                        [("/home/user/config.json", "<full configuration>")]
                        [("/videos/source", ["a.mkv"])] [Demo.ok])
           [] "<full configuration>"
           [("ffmpeg_dir", JString "/opt/ffmpeg/bin");
            ("source_dir", JString "/videos/source");
            ("target_dir", JString "/videos/target");
            ("file_extension_filter", JString "mkv")]
           "/opt/ffmpeg/bin" (JString "/videos/source") (JString "/videos/target")
           (JString "mkv")); reflexivity.
Defined.

(** ** The batch, whatever the runner does *)

Section AnyRunner.

Variable P : Platform.

Lemma remove_file_spawn_error (target_dir video_file : Path) (w w' : World P)
      (tr : list Event) (e : PyExc) :
  parts video_file <> [] ->
  subprocess_run P (command_for target_dir video_file) w = (inl e, w') ->
  remove_hun_audio_from_file P target_dir video_file (mkState P w tr)
  = (inl e, mkState P w' (tr ++ launch_events target_dir video_file)).
Proof.
  intros Hp Hrun.
  unfold remove_hun_audio_from_file, bind, lift, print, emit, run, raise.
  rewrite (remove_command_defined video_file target_dir Hp). simpl.
  rewrite Hrun. unfold launch_events. repeat rewrite <- app_assoc. reflexivity.
Qed.

Lemma remove_file_no_parts (target_dir video_file : Path) (st : State P) :
  parts video_file = [] ->
  remove_hun_audio_from_file P target_dir video_file st = (inl IndexError, st).
Proof.
  intros Hp.
  unfold remove_hun_audio_from_file, bind, lift, remove_command, parts_last.
  rewrite Hp. reflexivity.
Qed.

(** One turn of the loop either fails on the subscript and adds nothing, or
    adds events among which the command of the file is the only run. *)
Lemma remove_file_trace (target_dir video_file : Path) (st : State P) :
  exists evs,
    trace (snd (remove_hun_audio_from_file P target_dir video_file st))
    = trace st ++ evs
    /\ setenvs_of evs = [] /\ iterdirs_of evs = []
    /\ ((fst (remove_hun_audio_from_file P target_dir video_file st) = inl IndexError
         /\ evs = [])
        \/ runs_of evs = [command_for target_dir video_file]).
Proof.
  destruct st as [w tr].
  destruct (parts video_file) as [|x l] eqn:Hparts.
  - exists []. rewrite (remove_file_no_parts target_dir video_file _ Hparts).
    simpl. rewrite app_nil_r. repeat split; auto.
  - assert (Hp : parts video_file <> []) by (rewrite Hparts; discriminate).
    destruct (subprocess_run P (command_for target_dir video_file) w)
      as [[e|r] w'] eqn:Hrun.
    + exists (launch_events target_dir video_file).
      rewrite (remove_file_spawn_error _ _ _ _ tr _ Hp Hrun). simpl. repeat split; auto.
    + destruct (Z.eq_dec (returncode r) 0) as [Hrc|Hrc].
      * exists (success_events target_dir video_file).
        rewrite (remove_file_success P _ _ _ _ tr _ Hp Hrun Hrc). simpl. repeat split; auto.
      * exists (abort_events target_dir video_file r).
        rewrite (remove_file_failure P _ _ _ _ tr _ Hp Hrun Hrc). simpl. repeat split; auto.
Qed.

(** The loop adds, after the events it found, the commands of a prefix of the
    list, one per file and in order, and no assignment or listing. *)
Lemma batch_trace (target_dir : Path) (video_files : list Path) :
  forall st : State P,
  exists k evs,
    k <= length video_files
    /\ trace (snd (remove_hun_audio_from_files P video_files target_dir st))
       = trace st ++ evs
    /\ runs_of evs = map (command_for target_dir) (firstn k video_files)
    /\ setenvs_of evs = [] /\ iterdirs_of evs = []
    /\ (fst (remove_hun_audio_from_files P video_files target_dir st) = inr tt ->
        k = length video_files).
Proof.
  unfold remove_hun_audio_from_files.
  induction video_files as [|f rest IH]; intros st.
  - exists 0, []. simpl. rewrite app_nil_r. repeat split; auto.
  - assert (Heq : for_each (remove_hun_audio_from_file P target_dir) (f :: rest) st
                 = match remove_hun_audio_from_file P target_dir f st with
                   | (inl e, st') => (inl e, st')
                   | (inr _, st') =>
                       for_each (remove_hun_audio_from_file P target_dir) rest st'
                   end) by reflexivity.
    rewrite Heq. clear Heq.
    destruct (remove_file_trace target_dir f st)
      as [evs1 [Htr [Hset [Hdir Hcase]]]].
    destruct (remove_hun_audio_from_file P target_dir f st) as [[e|[]] st1] eqn:Hstep;
      simpl in Htr, Hcase.
    + destruct Hcase as [[_ ->] | Hruns].
      * exists 0, []. simpl. repeat split; auto; try lia. discriminate.
      * exists 1, evs1. simpl. repeat split; auto; try lia. discriminate.
    + destruct Hcase as [[Habs _] | Hruns]; [discriminate Habs|].
      destruct (IH st1) as [k [evs [Hk [Htr' [Hruns' [Hset' [Hdir' Hall]]]]]]].
      exists (S k), (evs1 ++ evs). simpl.
      rewrite Htr', Htr, <- app_assoc, runs_of_app, setenvs_of_app, iterdirs_of_app.
      rewrite Hruns, Hruns', Hset, Hset', Hdir, Hdir'.
      repeat split; auto; try lia.
Qed.

End AnyRunner.

(** X10.  Whatever the files and whatever the runner answers or raises, the
    batch hands to the runner the commands of a prefix of the list, each once
    and in the order of the list; it returns normally only after the command
    of every file. *)
Theorem batch_runs_a_prefix (P : Platform) (target_dir : Path)
        (video_files : list Path) (st : State P) :
  exists k,
    k <= length video_files
    /\ runs_of (trace (snd (remove_hun_audio_from_files P video_files target_dir st)))
       = runs_of (trace st) ++ map (command_for target_dir) (firstn k video_files)
    /\ (fst (remove_hun_audio_from_files P video_files target_dir st) = inr tt ->
        k = length video_files).
Proof.
  destruct (batch_trace P target_dir video_files st)
    as [k [evs [Hk [Htr [Hruns [_ [_ Hall]]]]]]].
  exists k. rewrite Htr, runs_of_app, Hruns. auto.
Qed.

(** The loop up to a process that cannot be launched. *)
Lemma batch_spawn_error_at (P : Platform) (target_dir : Path)
      (video_files : list Path) :
  forall (i : nat) (w : World P) (tr : list Event) (f : Path) (e : PyExc),
    Forall (fun f => parts f <> []) video_files ->
    nth_error video_files i = Some f ->
    (forall j, j < i ->
       exists rj,
         nth_error (run_all P (map (command_for target_dir) video_files) w) j = Some rj
         /\ exited_zero rj) ->
    nth_error (run_all P (map (command_for target_dir) video_files) w) i = Some (inl e) ->
    exists w',
      remove_hun_audio_from_files P video_files target_dir (mkState P w tr)
      = (inl e,
         mkState P w' (tr ++ flat_map (success_events target_dir) (firstn i video_files)
                          ++ launch_events target_dir f)).
Proof.
  induction video_files as [|f0 rest IH]; intros i w tr f e Hparts Hf Hbefore Hres.
  - destruct i; discriminate.
  - inversion Hparts as [|? ? Hf0 Hrestparts]; subst.
    simpl in Hres, Hbefore.
    destruct (subprocess_run P (command_for target_dir f0) w) as [r0 w0] eqn:Hrun.
    unfold remove_hun_audio_from_files in *. simpl for_each. unfold bind at 1.
    destruct i as [|i].
    + simpl in Hf, Hres. injection Hf as ->. injection Hres as ->.
      exists w0. rewrite (remove_file_spawn_error P _ _ _ _ tr _ Hf0 Hrun).
      reflexivity.
    + simpl in Hf, Hres.
      destruct (Hbefore 0 (Nat.lt_0_succ i)) as [r0' [Hr0 [c [-> Hc]]]].
      simpl in Hr0. injection Hr0 as ->.
      rewrite (remove_file_success P _ _ _ _ tr _ Hf0 Hrun Hc).
      destruct (IH i w0 (tr ++ success_events target_dir f0) f e Hrestparts Hf)
        as [w' Hbatch]; auto.
      { intros j Hj. apply (Hbefore (S j)). lia. }
      exists w'. rewrite Hbatch. simpl firstn. simpl flat_map.
      repeat rewrite <- app_assoc. reflexivity.
Qed.

(** X11.  When the process of the K-th file cannot be launched (the runner
    raises) after K-1 commands that exited with 0, the batch raises that very
    error, unchanged; the K-th command was the last one handed to the runner,
    and the last line printed is the one showing its arguments: no failure
    line is printed and no later file is tried. *)
Theorem batch_stops_on_spawn_error (P : Platform) (target_dir : Path)
        (video_files : list Path) (K : nat) (w : World P) (tr : list Event)
        (e : PyExc) :
  let results := run_all P (map (command_for target_dir) video_files) w in
  Forall (fun f => parts f <> []) video_files ->
  1 <= K <= length video_files ->
  (forall j, j < K - 1 -> exists rj, nth_error results j = Some rj /\ exited_zero rj) ->
  nth_error results (K - 1) = Some (inl e) ->
  exists st' f before,
    remove_hun_audio_from_files P video_files target_dir (mkState P w tr) = (inl e, st')
    /\ nth_error video_files (K - 1) = Some f
    /\ trace st'
       = before
         ++ [EvPrint (Text ("Removing HUN audio from video " ++ name f)%string);
             EvPrint (TextList "Command arguments: " (command_for target_dir f));
             EvRun (command_for target_dir f)]
    /\ length (runs_of (trace st')) = length (runs_of tr) + K.
Proof.
  intros results Hparts HK Hbefore Hres.
  destruct (nth_error video_files (K - 1)) as [f|] eqn:Hf.
  2:{ apply nth_error_None in Hf. lia. }
  destruct (batch_spawn_error_at P target_dir video_files (K - 1) w tr f e
              Hparts Hf Hbefore Hres) as [w' Hbatch].
  eexists. exists f.
  exists (tr ++ flat_map (success_events target_dir) (firstn (K - 1) video_files)).
  split; [exact Hbatch|]. split; [reflexivity|]. simpl trace. split.
  - rewrite <- app_assoc. reflexivity.
  - repeat rewrite runs_of_app. rewrite runs_of_success_events.
    repeat rewrite length_app. rewrite length_map, length_firstn. simpl. lia.
Qed.

Lemma batch_stops_on_spawn_error_witness :
  exists st' f before,
    remove_hun_audio_from_files Demo.platform
      [parse "/videos/source/a.mkv"; parse "/videos/source/b.MKV"]
      (parse "/videos/target")
      (mkState Demo.platform (Demo.machine [Demo.ok]) [])
    = (inl (FileNotFoundError ["No such file or directory"]), st')
    /\ nth_error [parse "/videos/source/a.mkv"; parse "/videos/source/b.MKV"] (2 - 1)
       = Some f
    /\ trace st'
       = before
         ++ [EvPrint (Text ("Removing HUN audio from video " ++ name f)%string);
             EvPrint (TextList "Command arguments: "
                               (command_for (parse "/videos/target") f));
             EvRun (command_for (parse "/videos/target") f)]
    /\ length (runs_of (trace st')) = length (runs_of []) + 2.
Proof.
  apply (batch_stops_on_spawn_error Demo.platform (parse "/videos/target")
           [parse "/videos/source/a.mkv"; parse "/videos/source/b.MKV"]
           2 (Demo.machine [Demo.ok]) []
           (FileNotFoundError ["No such file or directory"])).
  - repeat constructor; discriminate.
  - simpl; lia.
  - intros j Hj. assert (j = 0) as -> by (simpl in Hj; lia).
    exists (inr Demo.ok). split; [reflexivity|].
    exists Demo.ok. split; reflexivity.
  - reflexivity.
Defined.

(** ** The whole script *)

Lemma success_events_quiet (target_dir : Path) (video_files : list Path) :
  setenvs_of (flat_map (success_events target_dir) video_files) = []
  /\ iterdirs_of (flat_map (success_events target_dir) video_files) = [].
Proof.
  induction video_files as [|f rest [IHs IHd]]; [split; reflexivity|].
  unfold setenvs_of, iterdirs_of in *. simpl. split; assumption.
Qed.






(** ** The inspection passes *)

Section Inspection.

Variable P : Platform.

Lemma inspection_events_runs (f : Path) (c : CompletedProcess) :
  runs_of (inspection_events f c) = [ffprobe_command f]
  /\ printed_of (inspection_events f c)
     = if (returncode c =? 0)%Z then [Text (stdout c)] else [].
Proof. unfold inspection_events. destruct (returncode c =? 0)%Z; split; reflexivity. Qed.

Lemma print_file_data_step (f : Path) (rest : list Path) (w w' : World P)
      (tr : list Event) (c : CompletedProcess) :
  subprocess_run P (ffprobe_command f) w = (inr c, w') ->
  print_file_data_raw P (f :: rest) (mkState P w tr)
  = print_file_data_raw P rest (mkState P w' (tr ++ inspection_events f c)).
Proof.
  intros Hrun. unfold print_file_data_raw. simpl for_each.
  unfold bind at 1. unfold bind at 1, run at 1. simpl world. rewrite Hrun.
  unfold inspection_events. simpl trace.
  destruct (returncode c =? 0)%Z.
  - unfold print, emit. simpl. rewrite <- app_assoc. reflexivity.
  - unfold ret. reflexivity.
Qed.

(** The printing pass over files whose processes are all launched. *)
Lemma print_file_data_trace (video_files : list Path) :
  forall (w : World P) (tr : list Event),
    Forall launched (run_all P (map ffprobe_command video_files) w) ->
    exists st',
      print_file_data_raw P video_files (mkState P w tr) = (inr tt, st')
      /\ runs_of (trace st') = runs_of tr ++ map ffprobe_command video_files
      /\ printed_of (trace st')
         = printed_of tr
           ++ map (fun c => Text (stdout c))
                  (filter (fun c => (returncode c =? 0)%Z)
                          (completed_of (run_all P (map ffprobe_command video_files) w))).
Proof.
  induction video_files as [|f rest IH]; intros w tr Hall.
  - eexists. split; [reflexivity|]. simpl. repeat rewrite app_nil_r. auto.
  - simpl in Hall |- *.
    destruct (subprocess_run P (ffprobe_command f) w) as [r0 w0] eqn:Hrun.
    inversion Hall as [|? ? [c ->] Hrest]; subst.
    destruct (IH w0 (tr ++ inspection_events f c) Hrest) as [st' [Hrun' [Hruns Hprinted]]].
    exists st'. rewrite (print_file_data_step f rest w w0 tr c Hrun).
    split; [exact Hrun'|].
    destruct (inspection_events_runs f c) as [Hr Hp].
    rewrite Hruns, Hprinted, runs_of_app, printed_of_app, Hr, Hp.
    repeat rewrite <- app_assoc. split; [reflexivity|].
    f_equal. simpl. destruct (returncode c =? 0)%Z; reflexivity.
Qed.

(** The raw pass over files whose processes are all launched. *)
Lemma raw_pass_trace (video_files : list Path) :
  forall (w : World P) (tr : list Event),
    Forall launched (run_all P (map ffprobe_command video_files) w) ->
    exists w',
      get_file_data_list_raw P video_files (mkState P w tr)
      = (inr (map data_of (completed_of (run_all P (map ffprobe_command video_files) w))),
         mkState P w' (tr ++ map EvRun (map ffprobe_command video_files)))
      /\ length (completed_of (run_all P (map ffprobe_command video_files) w))
         = length video_files.
Proof.
  induction video_files as [|f rest IH]; intros w tr Hall.
  - exists w. simpl. rewrite app_nil_r. split; reflexivity.
  - simpl in Hall |- *.
    destruct (subprocess_run P (ffprobe_command f) w) as [r0 w0] eqn:Hrun.
    inversion Hall as [|? ? [c ->] Hrest]; subst.
    destruct (IH w0 (tr ++ [EvRun (ffprobe_command f)]) Hrest) as [w' [Hraw Hlen]].
    exists w'. split.
    + unfold get_file_data_list_raw in *. simpl comprehension. unfold bind at 1.
      rewrite (get_file_data_launched P f w w0 tr c Hrun).
      unfold bind at 1. rewrite Hraw. unfold ret. simpl.
      rewrite <- app_assoc. reflexivity.
    + simpl. rewrite Hlen. reflexivity.
Qed.

(** The conversion of documents that all decode. *)
Lemma processed_data_ok (raw : list string) (docs : list JSON) (st : State P) :
  Forall2 (fun d v => json_loads P d = inr v) raw docs ->
  get_processed_data P raw st = (inr docs, st).
Proof.
  intros H. unfold get_processed_data.
  induction H as [|d v raw docs Hd _ IH]; [reflexivity|].
  simpl comprehension. unfold bind at 1, lift at 1. rewrite Hd.
  unfold bind at 1. rewrite IH. reflexivity.
Qed.

Lemma runs_of_map_EvRun (cmds : list (list string)) : runs_of (map EvRun cmds) = cmds.
Proof.
  induction cmds as [|c l IH]; [reflexivity|].
  unfold runs_of in *. simpl. rewrite IH. reflexivity.
Qed.

End Inspection.

(** X14.  [print_file_data_raw] does not stop at a failed inspection: when
    every process is launched it runs the inspection command of every file,
    in the order of the list, prints the output of exactly those that exited
    with 0, in that order, and returns normally. *)
Theorem print_file_data_raw_visits_every_file (P : Platform)
        (video_files : list Path) (w : World P) (tr : list Event) :
  let results := run_all P (map ffprobe_command video_files) w in
  Forall launched results ->
  exists st',
    print_file_data_raw P video_files (mkState P w tr) = (inr tt, st')
    /\ runs_of (trace st') = runs_of tr ++ map ffprobe_command video_files
    /\ printed_of (trace st')
       = printed_of tr
         ++ map (fun c => Text (stdout c))
                (filter (fun c => (returncode c =? 0)%Z) (completed_of results)).
Proof.
  intros results Hall. exact (print_file_data_trace P video_files w tr Hall).
Qed.

Lemma print_file_data_raw_visits_every_file_witness :
  exists st',
    print_file_data_raw Demo.platform
      [parse "/videos/source/a.mkv"; parse "/videos/source/b.MKV";
       parse "/videos/source/c.mkv"]
      (mkState Demo.platform
         (Demo.machine [mkCompleted 0 "first" ""; Demo.failed;
                        mkCompleted 0 "third" ""]) [])
    = (inr tt, st')
    /\ runs_of (trace st')
       = runs_of []
         ++ map ffprobe_command
              [parse "/videos/source/a.mkv"; parse "/videos/source/b.MKV";
               parse "/videos/source/c.mkv"]
    /\ printed_of (trace st') = printed_of [] ++ [Text "first"; Text "third"].
Proof.
  apply (print_file_data_raw_visits_every_file Demo.platform
           [parse "/videos/source/a.mkv"; parse "/videos/source/b.MKV";
            parse "/videos/source/c.mkv"]
           (Demo.machine [mkCompleted 0 "first" ""; Demo.failed;
                          mkCompleted 0 "third" ""]) []).
  repeat constructor; eexists; reflexivity.
Defined.

(** X15.  [get_file_data_list_raw] does not stop at a failed inspection
    either: when every process is launched it returns one string per file, in
    the order of the list (the output of the tool where it exited with 0, the
    empty string elsewhere), after running exactly the inspection commands of
    the files, in order, and printing nothing. *)
Theorem raw_pass_returns_one_string_per_file (P : Platform)
        (video_files : list Path) (w : World P) (tr : list Event) :
  let results := run_all P (map ffprobe_command video_files) w in
  Forall launched results ->
  exists raw st',
    get_file_data_list_raw P video_files (mkState P w tr) = (inr raw, st')
    /\ raw = map data_of (completed_of results)
    /\ length raw = length video_files
    /\ trace st' = tr ++ map EvRun (map ffprobe_command video_files).
Proof.
  intros results Hall.
  destruct (raw_pass_trace P video_files w tr Hall) as [w' [Hraw Hlen]].
  eexists. eexists. split; [exact Hraw|].
  split; [reflexivity|]. split; [|reflexivity].
  rewrite length_map. exact Hlen.
Qed.

Lemma raw_pass_returns_one_string_per_file_witness :
  exists raw st',
    get_file_data_list_raw Demo.platform
      [parse "/videos/source/a.mkv"; parse "/videos/source/b.MKV"]
      (mkState Demo.platform (Demo.machine [mkCompleted 0 "first" ""; Demo.failed]) [])
    = (inr raw, st')
    /\ raw = map data_of [mkCompleted 0 "first" ""; Demo.failed]
    /\ length raw = 2
    /\ trace st'
       = [] ++ map EvRun (map ffprobe_command
                            [parse "/videos/source/a.mkv"; parse "/videos/source/b.MKV"]).
Proof.
  apply (raw_pass_returns_one_string_per_file Demo.platform
           [parse "/videos/source/a.mkv"; parse "/videos/source/b.MKV"]
           (Demo.machine [mkCompleted 0 "first" ""; Demo.failed]) []).
  repeat constructor; eexists; reflexivity.
Defined.

(** X16.  [get_processed_data] touches nothing: on documents that all decode
    it returns their values, one per document and in order, in the state it
    was called in. *)
Theorem processed_data_decodes_in_order (P : Platform) (raw : list string)
        (docs : list JSON) (st : State P) :
  Forall2 (fun d v => json_loads P d = inr v) raw docs ->
  get_processed_data P raw st = (inr docs, st)
  /\ length docs = length raw.
Proof.
  intros H. split; [exact (processed_data_ok P raw docs st H)|].
  symmetry. exact (Forall2_length H).
Qed.

Lemma processed_data_decodes_in_order_witness :
  get_processed_data Demo.platform ["<streams>"; "<full configuration>"]
    (mkState Demo.platform (Demo.machine []) [])
  = (inr [JObject [("streams", JArray [])]; Demo.full_config],
     mkState Demo.platform (Demo.machine []) []).
Proof.
  apply (processed_data_decodes_in_order Demo.platform
           ["<streams>"; "<full configuration>"]
           [JObject [("streams", JArray [])]; Demo.full_config]
           (mkState Demo.platform (Demo.machine []) [])).
  repeat constructor.
Defined.

(** X17.  [get_processed_data] raises the error of the first document that
    does not decode, in the state it was called in; the documents after it
    are not looked at. *)
Theorem processed_data_raises_first_error (P : Platform)
        (good rest : list string) (bad : string) (e : PyExc) (st : State P) :
  Forall (fun d => exists v, json_loads P d = inr v) good ->
  json_loads P bad = inl e ->
  get_processed_data P (good ++ bad :: rest) st = (inl e, st).
Proof.
  intros Hgood Hbad. unfold get_processed_data.
  induction Hgood as [|d good [v Hd] _ IH]; simpl comprehension.
  - unfold bind at 1, lift at 1. rewrite Hbad. reflexivity.
  - unfold bind at 1, lift at 1. rewrite Hd.
    unfold bind at 1. rewrite IH. reflexivity.
Qed.

Lemma processed_data_raises_first_error_witness :
  get_processed_data Demo.platform (["<streams>"] ++ "" :: ["also not a document"])
    (mkState Demo.platform (Demo.machine []) [])
  = (inl JSONDecodeError, mkState Demo.platform (Demo.machine []) []).
Proof.
  apply (processed_data_raises_first_error Demo.platform
           ["<streams>"] ["also not a document"] "" JSONDecodeError
           (mkState Demo.platform (Demo.machine []) [])).
  - repeat constructor. eexists. reflexivity.
  - reflexivity.
Defined.

(** X18.  The debugging pipeline succeeds when every inspection is launched
    and what [get_file_data] returns for it decodes: it then returns one
    value per file, in the order of the list, after running exactly the
    inspection commands of the files. *)
Theorem debug_pipeline_succeeds (P : Platform) (video_files : list Path)
        (docs : list JSON) (w : World P) (tr : list Event) :
  let results := run_all P (map ffprobe_command video_files) w in
  Forall launched results ->
  Forall2 (fun c v => json_loads P (data_of c) = inr v) (completed_of results) docs ->
  exists st',
    debug_pipeline P video_files (mkState P w tr) = (inr docs, st')
    /\ length docs = length video_files
    /\ runs_of (trace st') = runs_of tr ++ map ffprobe_command video_files.
Proof.
  intros results Hall Hdocs.
  destruct (raw_pass_trace P video_files w tr Hall) as [w' [Hraw Hlen]].
  eexists. split; [|split].
  - unfold debug_pipeline, bind. rewrite Hraw.
    apply processed_data_ok.
    fold results. clear - Hdocs.
    induction Hdocs; constructor; assumption.
  - rewrite <- (Forall2_length Hdocs). exact Hlen.
  - simpl trace. rewrite runs_of_app, runs_of_map_EvRun. reflexivity.
Qed.

Lemma debug_pipeline_succeeds_witness :
  exists st',
    debug_pipeline Demo.platform
      [parse "/videos/source/a.mkv"; parse "/videos/source/b.MKV"]
      (mkState Demo.platform
         (Demo.machine [mkCompleted 0 "<streams>" ""; mkCompleted 0 "<streams>" ""]) [])
    = (inr [JObject [("streams", JArray [])]; JObject [("streams", JArray [])]], st')
    /\ length [JObject [("streams", JArray [])]; JObject [("streams", JArray [])]]
       = length [parse "/videos/source/a.mkv"; parse "/videos/source/b.MKV"]
    /\ runs_of (trace st')
       = runs_of []
         ++ map ffprobe_command
              [parse "/videos/source/a.mkv"; parse "/videos/source/b.MKV"].
Proof.
  apply (debug_pipeline_succeeds Demo.platform
           [parse "/videos/source/a.mkv"; parse "/videos/source/b.MKV"]
           [JObject [("streams", JArray [])]; JObject [("streams", JArray [])]]
           (Demo.machine [mkCompleted 0 "<streams>" ""; mkCompleted 0 "<streams>" ""])
           []).
  - repeat constructor; eexists; reflexivity.
  - repeat constructor.
Defined.

(** ** The text of a path *)

Lemma split_app_sep (x t : string) :
  has_sep x = false ->
  PyStr.split sep (x ++ String sep t) = x :: PyStr.split sep t.
Proof.
  induction x as [|c x IH]; intros H.
  - simpl. reflexivity.
  - simpl in H. apply orb_false_iff in H. destruct H as [Hc Hx].
    simpl. rewrite Hc, (IH Hx). reflexivity.
Qed.

Lemma valid_part_no_sep (x : string) : valid_part x = true -> has_sep x = false.
Proof.
  unfold valid_part. intros H. apply andb_true_iff in H.
  destruct H as [_ H]. apply negb_true_iff in H. exact H.
Qed.

Lemma split_join (l : list string) :
  l <> [] ->
  Forall (fun x => valid_part x = true) l ->
  PyStr.split sep (PyStr.join "/" l) = l.
Proof.
  induction l as [|x l IH]; intros Hne Hall; [contradiction|].
  inversion Hall as [|? ? Hx Hl]; subst.
  destruct l as [|y l].
  - simpl. apply split_without_sep. apply valid_part_no_sep. exact Hx.
  - change (PyStr.join "/" (x :: y :: l))
      with (x ++ String sep (PyStr.join "/" (y :: l)))%string.
    rewrite (split_app_sep x _ (valid_part_no_sep x Hx)).
    rewrite IH; [reflexivity | discriminate | exact Hl].
Qed.

Lemma filter_valid_parts (l : list string) :
  Forall (fun x => valid_part x = true) l -> filter keep_part l = l.
Proof.
  induction 1 as [|x l Hx _ IH]; [reflexivity|].
  simpl. unfold valid_part in Hx. apply andb_true_iff in Hx. destruct Hx as [Hk _].
  rewrite Hk, IH. reflexivity.
Qed.

(** The components of a joined text, for valid parts. *)
Lemma parts_of_join (l : list string) :
  Forall (fun x => valid_part x = true) l ->
  filter keep_part (PyStr.split sep (PyStr.join "/" l)) = l.
Proof.
  intros Hall. destruct l as [|x l]; [reflexivity|].
  rewrite split_join; [apply filter_valid_parts; exact Hall | discriminate | exact Hall].
Qed.

(** The text joined from valid parts does not start with a separator. *)
Lemma join_first_char (l : list string) :
  Forall (fun x => valid_part x = true) l ->
  match PyStr.join "/" l with
  | String c _ => Ascii.eqb c sep = false
  | EmptyString => True
  end.
Proof.
  intros Hall. destruct l as [|x l]; [exact I|].
  inversion Hall as [|? ? Hx _]; subst.
  assert (Hs := valid_part_no_sep x Hx).
  unfold valid_part, keep_part in Hx.
  destruct x as [|c x]; [discriminate Hx|].
  simpl in Hs. apply orb_false_iff in Hs. destruct Hs as [Hc _].
  destruct l; simpl; exact Hc.
Qed.

Lemma splitroot_relative (s : string) :
  match s with String c _ => Ascii.eqb c sep = false | EmptyString => True end ->
  splitroot s = ("", s).
Proof.
  destruct s as [|c s]; [reflexivity|]. intros Hc.
  destruct c as [[] [] [] [] [] [] [] []]; try reflexivity; discriminate Hc.
Qed.

Lemma splitroot_one_slash (s : string) :
  match s with String c _ => Ascii.eqb c sep = false | EmptyString => True end ->
  splitroot (String sep s) = ("/", s).
Proof.
  destruct s as [|c s]; [reflexivity|]. intros Hc.
  destruct c as [[] [] [] [] [] [] [] []]; try reflexivity; discriminate Hc.
Qed.

Lemma splitroot_two_slashes (s : string) :
  match s with String c _ => Ascii.eqb c sep = false | EmptyString => True end ->
  splitroot (String sep (String sep s)) = ("//", s).
Proof.
  destruct s as [|c s]; [reflexivity|]. intros Hc.
  destruct c as [[] [] [] [] [] [] [] []]; try reflexivity; discriminate Hc.
Qed.

(** Parsing the text of a path gives the path back. *)
Lemma parse_str (p : Path) : wf_path p -> parse (str p) = p.
Proof.
  destruct p as [r t]. unfold wf_path. simpl. intros [Hroot Hall].
  assert (Hfirst := join_first_char t Hall).
  assert (Hparts := parts_of_join t Hall).
  destruct Hroot as [-> | [-> | ->]].
  - destruct t as [|x l]; [reflexivity|].
    assert (Hstr : str (mkPath "" (x :: l)) = PyStr.join "/" (x :: l)) by reflexivity.
    rewrite Hstr. unfold parse.
    rewrite (splitroot_relative _ Hfirst), Hparts. reflexivity.
  - assert (Hstr : str (mkPath "/" t) = String sep (PyStr.join "/" t)) by reflexivity.
    rewrite Hstr. unfold parse.
    rewrite (splitroot_one_slash _ Hfirst), Hparts. reflexivity.
  - assert (Hstr : str (mkPath "//" t) = String sep (String sep (PyStr.join "/" t)))
      by reflexivity.
    rewrite Hstr. unfold parse.
    rewrite (splitroot_two_slashes _ Hfirst), Hparts. reflexivity.
Qed.

Lemma wf_make_child_relpath (p : Path) (x : string) :
  wf_path p -> valid_part x = true -> wf_path (make_child_relpath p x).
Proof.
  intros [Hroot Hall] Hx. split; [exact Hroot|]. simpl.
  apply Forall_app. split; [exact Hall | constructor; [exact Hx | constructor]].
Qed.

Lemma wf_parse (s : string) : wf_path (parse s).
Proof.
  split; [|apply parse_parts_valid].
  unfold parse. destruct (splitroot s) as [r rel] eqn:H. simpl.
  unfold splitroot in H.
  destruct s as [|c1 s]; [injection H as <- _; auto|].
  destruct (Ascii.eqb c1 sep) eqn:H1.
  - apply Ascii.eqb_eq in H1. subst c1.
    destruct s as [|c2 s]; [injection H as <- _; auto|].
    destruct (Ascii.eqb c2 sep) eqn:H2.
    + apply Ascii.eqb_eq in H2. subst c2.
      destruct s as [|c3 s]; [injection H as <- _; auto|].
      destruct (Ascii.eqb c3 sep) eqn:H3.
      * apply Ascii.eqb_eq in H3. subst c3. injection H as <- _. auto.
      * destruct c3 as [[] [] [] [] [] [] [] []];
          try discriminate H3; injection H as <- _; auto.
    + destruct c2 as [[] [] [] [] [] [] [] []];
        try discriminate H2; injection H as <- _; auto.
  - destruct c1 as [[] [] [] [] [] [] [] []];
      try discriminate H1; injection H as <- _; auto.
Qed.

(** X19.  Round trip: for every text [s], the path [Path(s)] is recovered
    from its own text: [Path(str(Path(s))) = Path(s)].  The source argument
    handed to the tools at lines 69 and 95 therefore denotes the path the
    script holds. *)
Theorem path_text_round_trip (s : string) : parse (str (parse s)) = parse s.
Proof. apply parse_str. apply wf_parse. Qed.

(** X20.  Two source files of a batch get the same output argument exactly
    when they have the same base name: the directories of the sources play no
    part, and distinct names never collide in the target directory. *)
Theorem outputs_collide_on_equal_names (target_dir f1 f2 : Path)
        (c1 c2 : list string) :
  wf_path target_dir ->
  tail f1 <> [] -> tail f2 <> [] ->
  valid_part (name f1) = true -> valid_part (name f2) = true ->
  remove_command f1 target_dir = inr c1 ->
  remove_command f2 target_dir = inr c2 ->
  (last c1 "" = last c2 "" <-> name f1 = name f2).
Proof.
  intros Hwf Ht1 Ht2 Hv1 Hv2 Hc1 Hc2.
  rewrite (remove_command_argv f1 target_dir Ht1) in Hc1. injection Hc1 as <-.
  rewrite (remove_command_argv f2 target_dir Ht2) in Hc2. injection Hc2 as <-.
  unfold removal_argv. cbn [last].
  rewrite (joinpath_str_valid_part target_dir (name f1) Hv1).
  rewrite (joinpath_str_valid_part target_dir (name f2) Hv2).
  split.
  - intros Heq. apply (f_equal parse) in Heq.
    rewrite (parse_str _ (wf_make_child_relpath target_dir (name f1) Hwf Hv1)) in Heq.
    rewrite (parse_str _ (wf_make_child_relpath target_dir (name f2) Hwf Hv2)) in Heq.
    unfold make_child_relpath in Heq. injection Heq as Heq.
    apply app_inv_head in Heq. injection Heq as Heq. exact Heq.
  - intros ->. reflexivity.
Qed.

Lemma outputs_collide_on_equal_names_witness :
  last ["ffmpeg"; "-i"; "/videos/source/a.mkv";
        "-map"; "0:v"; "-map"; "0:s"; "-map"; "-0:a:0"; "-map"; "0:a:1";
        "-c:v"; "copy"; "-c:a"; "copy"; "-c:s"; "copy"; "/videos/target/a.mkv"] ""
  = last ["ffmpeg"; "-i"; "/older/a.mkv";
          "-map"; "0:v"; "-map"; "0:s"; "-map"; "-0:a:0"; "-map"; "0:a:1";
          "-c:v"; "copy"; "-c:a"; "copy"; "-c:s"; "copy"; "/videos/target/a.mkv"] ""
  <-> name (parse "/videos/source/a.mkv") = name (parse "/older/a.mkv").
Proof.
  apply (outputs_collide_on_equal_names (parse "/videos/target")
           (parse "/videos/source/a.mkv") (parse "/older/a.mkv")).
  - apply wf_parse.
  - simpl. discriminate.
  - simpl. discriminate.
  - reflexivity.
  - reflexivity.
  - reflexivity.
  - reflexivity.
Defined.

(** X21.  For an anchored source directory (or the empty path) and a filter
    that [str.lower] leaves unchanged (names and filter being strings of the
    model: all code points below 256), the enumeration returns exactly the
    children of the directory whose suffix is the dot and the filter up to
    case. *)
Theorem enumeration_of_anchored_directory (P : Platform) (dir_path : Path)
        (extension : string) (w : World P) (tr : list Event) (entries : list string) :
  root dir_path <> "" \/ tail dir_path = [] ->
  PyStr.lower extension = extension ->
  listdir P w dir_path = inr entries ->
  exists files,
    get_video_files_from_path P dir_path extension (mkState P w tr)
    = (inr files, mkState P w (tr ++ [EvIterdir dir_path]))
    /\ files = filter (fun child => PyStr.eq_nocase (suffix child) ("." ++ extension))
                      (children dir_path entries)
    /\ forall p,
        In p files
        <-> In p (children dir_path entries)
            /\ PyStr.eq_nocase (suffix p) ("." ++ extension) = true.
Proof.
  intros Hdir Hlow Hlist.
  rewrite (enumeration_exact P dir_path extension w tr entries Hdir Hlow Hlist).
  eexists. split; [reflexivity|]. split; [reflexivity|].
  intros p. apply filter_In.
Qed.

Lemma enumeration_of_anchored_directory_witness :
  exists files,
    get_video_files_from_path Demo.platform (parse "/videos/source") "mkv"
      (mkState Demo.platform (Demo.machine []) [])
    = (inr files,
       mkState Demo.platform (Demo.machine []) ([] ++ [EvIterdir (parse "/videos/source")]))
    /\ files = filter (fun child => PyStr.eq_nocase (suffix child) ("." ++ "mkv"))
                      (children (parse "/videos/source")
                                ["a.mkv"; "b.MKV"; "notes.txt"; "c.mkv"])
    /\ forall p,
        In p files
        <-> In p (children (parse "/videos/source")
                           ["a.mkv"; "b.MKV"; "notes.txt"; "c.mkv"])
            /\ PyStr.eq_nocase (suffix p) ("." ++ "mkv") = true.
Proof.
  apply (enumeration_of_anchored_directory Demo.platform (parse "/videos/source") "mkv"
           (Demo.machine []) [] ["a.mkv"; "b.MKV"; "notes.txt"; "c.mkv"]).
  - left. simpl. discriminate.
  - reflexivity.
  - reflexivity.
Defined.
